(** * ACP librarian: catalog discovery, key normalisation, specialist calls,
      archivist request validation and the router's fast path.

    A shallow embedding of the orchestration code of the repository
    ([mcpserver.py], [main.py], [smolagents_server.py],
    [crew_agent_server.py], [scripts/list_books.py]) together with the
    properties its design document states about it, and further
    properties read off the code: edge cases, failures, invariants and the
    way the components compose.

    Conventions of the embedding.
    - A Python [str] is a Rocq [string]; a character is a code point in
      U+0000..U+00FF, so [str.lower] and [str.strip] are the Latin-1
      restrictions of the Unicode operations.
    - A Python call that may raise returns an [outcome]: [Ok v] or
      [Raise e]; [try/except] is [catch].
    - The file system, the process environment, HTTP and the ACP transport
      are oracles carried by records: the code only reads them.
    - [json.loads], [json.dumps] and [str()] of a non-string value are
      library code: they are the methods of the class [PyLib], so every
      theorem holds for any behaviour of the codec. A reference instance
      [ref_lib] is used for concrete runs. *)

From Stdlib Require Import String Ascii List Bool Arith ZArith Lia.
From Stdlib Require Import DecimalString.
From Stdlib Require Import Sorting.Sorted Sorting.Permutation.
Import ListNotations.

Local Open Scope list_scope.
Local Open Scope string_scope.
Set Warnings "-register-all".

(** ** Python values, exceptions and outcomes *)

Module Py.

Inductive exn_class : Type :=
| JSONDecodeError | KeyError | TypeError | AttributeError | IndexError
| OSError | EOFError | ConnectError | TimeoutException | ProtocolError
| HTTPError | RecursionError | ValueError | DocstringParsingException.

(** Every class above derives from [Exception]: [except Exception] handles
    them all. Signals that derive from [BaseException] only (an interrupt
    from the keyboard, a cancelled task) are outside the model. *)
Definition Exception (c : exn_class) : bool := true.

(** An exception object: its class and [str(e)]. *)
Record exn : Type := Exn { exn_cls : exn_class; exn_str : string }.

Inductive outcome (A : Type) : Type :=
| Ok (v : A)
| Raise (e : exn).
Arguments Ok {A} v.
Arguments Raise {A} e.

Definition bind {A B : Type} (m : outcome A) (k : A -> outcome B) : outcome B :=
  match m with
  | Ok v => k v
  | Raise e => Raise e
  end.

(** [try: body except <classes> as e: handler(e)] *)
Definition catch {A : Type} (handles : exn_class -> bool)
    (body : outcome A) (handler : exn -> outcome A) : outcome A :=
  match body with
  | Ok v => Ok v
  | Raise e => if handles (exn_cls e) then handler e else Raise e
  end.

Definition raise {A : Type} (c : exn_class) (msg : string) : outcome A :=
  Raise (Exn c msg).

Definition raises {A : Type} (m : outcome A) : Prop :=
  exists e, m = Raise e.

(** A decoded JSON document, as the Python object [json.loads] builds.
    A [dict] keeps its insertion order; the keys of a decoded object are
    strings. A float is kept as the literal it was read from, with the one
    bit of its value that the code can observe: whether it is nonzero. *)
Inductive pyval : Type :=
| PNone
| PBool (b : bool)
| PInt (n : Z)
| PFloat (nonzero : bool) (literal : string)
| PStr (s : string)
| PList (items : list pyval)
| PDict (items : list (string * pyval)).

Fixpoint dict_lookup (k : string) (d : list (string * pyval)) : option pyval :=
  match d with
  | [] => None
  | (k', v) :: rest => if String.eqb k' k then Some v else dict_lookup k rest
  end.

Definition dict_keys (d : list (string * pyval)) : list string := map fst d.

(** [bool(v)] *)
Definition truthy (v : pyval) : bool :=
  match v with
  | PNone => false
  | PBool b => b
  | PInt n => negb (Z.eqb n 0)
  | PFloat nonzero _ => nonzero
  | PStr s => match s with EmptyString => false | _ => true end
  | PList l => match l with [] => false | _ => true end
  | PDict d => match d with [] => false | _ => true end
  end.

Definition type_name (v : pyval) : string :=
  match v with
  | PNone => "NoneType" | PBool _ => "bool" | PInt _ => "int"
  | PFloat _ _ => "float" | PStr _ => "str" | PList _ => "list"
  | PDict _ => "dict"
  end.

(** [v.keys()] *)
Definition keys (v : pyval) : outcome (list string) :=
  match v with
  | PDict d => Ok (dict_keys d)
  | _ => raise AttributeError
           ("'" ++ type_name v ++ "' object has no attribute 'keys'")
  end.

(** [v.get(k, default)] *)
Definition get (v : pyval) (k : string) (default : pyval) : outcome pyval :=
  match v with
  | PDict d => Ok (match dict_lookup k d with Some x => x | None => default end)
  | _ => raise AttributeError
           ("'" ++ type_name v ++ "' object has no attribute 'get'")
  end.

(** [v[k]] with a string subscript [k] *)
Definition getitem (v : pyval) (k : string) : outcome pyval :=
  match v with
  | PDict d =>
      match dict_lookup k d with
      | Some x => Ok x
      | None => raise KeyError ("'" ++ k ++ "'")
      end
  | PList _ => raise TypeError "list indices must be integers or slices, not str"
  | PStr _ => raise TypeError "string indices must be integers, not 'str'"
  | _ => raise TypeError ("'" ++ type_name v ++ "' object is not subscriptable")
  end.

(** The result of [json.loads]: a value; [JSONDecodeError] with its text;
    or another exception, which the decoder raises on a text that it
    cannot take: [RecursionError] on brackets nested past the recursion
    limit, [ValueError] on an integer literal past the digit limit. *)
Inductive decoded : Type :=
| Decoded (v : pyval)
| DecodeError (msg : string)
| DecodeCrash (e : exn).

Class PyLib : Type := {
  json_loads : string -> decoded;
  json_dumps : pyval -> string;
  (** [json.dumps(v, indent=2, ensure_ascii=False)] *)
  json_dumps_indent2 : pyval -> string;
  (** [str(v)] for a value that is not a [str] *)
  str_of : pyval -> string
}.

Definition loads `{PyLib} (s : string) : outcome pyval :=
  match json_loads s with
  | Decoded v => Ok v
  | DecodeError msg => raise JSONDecodeError msg
  | DecodeCrash e => Raise e
  end.

(** [f"{v}"] *)
Definition format `{PyLib} (v : pyval) : string :=
  match v with
  | PStr s => s
  | _ => str_of v
  end.

Definition dquote : string := String (ascii_of_nat 34) EmptyString.
Definition nl : string := String (ascii_of_nat 10) EmptyString.

(** [a + b] where [a] is a [str] *)
Definition str_add (a : string) (b : pyval) : outcome string :=
  match b with
  | PStr s => Ok (a ++ s)
  | _ => raise TypeError
           ("can only concatenate str (not " ++ dquote ++ type_name b
              ++ dquote ++ ") to str")
  end.

(** *** [str] methods *)

(** [c.isspace()] on U+0000..U+00FF: TAB..CR, FS..US, SPACE, NEL, NBSP. *)
Definition isspace (c : ascii) : bool :=
  let n := nat_of_ascii c in
  (((9 <=? n) && (n <=? 13)) || ((28 <=? n) && (n <=? 32))
   || (n =? 133) || (n =? 160))%nat.

(** [c.lower()] on U+0000..U+00FF: A..Z, and the Latin-1 capitals
    U+00C0..U+00DE except the multiplication sign U+00D7. *)
Definition lower_char (c : ascii) : ascii :=
  let n := nat_of_ascii c in
  if (((65 <=? n) && (n <=? 90))
      || ((192 <=? n) && (n <=? 222) && negb (n =? 215)))%nat
  then ascii_of_nat (n + 32) else c.

Fixpoint lower (s : string) : string :=
  match s with
  | EmptyString => EmptyString
  | String c r => String (lower_char c) (lower r)
  end.

Fixpoint lstrip (s : string) : string :=
  match s with
  | EmptyString => EmptyString
  | String c r => if isspace c then lstrip r else s
  end.

Fixpoint rstrip (s : string) : string :=
  match s with
  | EmptyString => EmptyString
  | String c r =>
      match rstrip r with
      | EmptyString => if isspace c then EmptyString else String c EmptyString
      | t => String c t
      end
  end.

(** [s.strip()] *)
Definition strip (s : string) : string := rstrip (lstrip s).

(** [s.startswith(p)] *)
Definition startswith (s p : string) : bool := String.prefix p s.

(** [s.endswith(p)] *)
Definition endswith (s p : string) : bool :=
  (String.length p <=? String.length s)%nat
  && String.eqb (substring (String.length s - String.length p)
                            (String.length p) s) p.

(** [needle in hay] *)
Fixpoint contains (needle hay : string) : bool :=
  String.prefix needle hay
  || match hay with
     | EmptyString => false
     | String _ r => contains needle r
     end.

(** [s.partition(sep)] for a one-character separator. *)
Fixpoint partition (sep : ascii) (s : string) : string * string * string :=
  match s with
  | EmptyString => (EmptyString, EmptyString, EmptyString)
  | String c r =>
      if Ascii.eqb c sep then (EmptyString, String sep EmptyString, r)
      else match partition sep r with
           | (h, EmptyString, _) => (s, EmptyString, EmptyString)
           | (h, m, t) => (String c h, m, t)
           end
  end.

(** [s.split(sep, 1)] for a one-character separator. *)
Definition split1 (sep : ascii) (s : string) : list string :=
  match partition sep s with
  | (h, EmptyString, _) => [h]
  | (h, _, t) => [h; t]
  end.

(** [l[i]] on a list *)
Definition index {A : Type} (l : list A) (i : nat) : outcome A :=
  match nth_error l i with
  | Some x => Ok x
  | None => raise IndexError "list index out of range"
  end.

(** [sep.join(l)] *)
Definition join (sep : string) (l : list string) : string := String.concat sep l.

(** [s.rfind(c)]: [None] stands for -1. *)
Fixpoint rfind (c : ascii) (s : string) : option nat :=
  match s with
  | EmptyString => None
  | String a r =>
      match rfind c r with
      | Some i => Some (S i)
      | None => if Ascii.eqb a c then Some 0 else None
      end
  end.

Fixpoint all_dots (s : string) : bool :=
  match s with
  | EmptyString => true
  | String c r => Ascii.eqb c "."%char && all_dots r
  end.

(** [os.path.splitext(p)] (posixpath): the extension starts at the last dot
    of the last path component, leading dots of that component excepted. *)
Definition splitext (p : string) : string * string :=
  match rfind "."%char p with
  | None => (p, EmptyString)
  | Some dotIndex =>
      let start := match rfind "/"%char p with None => 0 | Some i => S i end in
      if (start <=? dotIndex)%nat
         && negb (all_dots (substring start (dotIndex - start) p))
      then (substring 0 dotIndex p,
            substring dotIndex (String.length p - dotIndex) p)
      else (p, EmptyString)
  end.

(** [os.path.join(a, b)] (posixpath) *)
Definition path_join (a b : string) : string :=
  if startswith b "/" then b
  else match a with
       | EmptyString => b
       | _ => if endswith a "/" then a ++ b else a ++ "/" ++ b
       end.

(** [sorted(l)] on strings: ascending by code points. The result of a
    stable sort of strings is determined by the order alone. *)
Fixpoint insert_sorted (x : string) (l : list string) : list string :=
  match l with
  | [] => [x]
  | y :: r => if String.leb x y then x :: l else y :: insert_sorted x r
  end.

Definition sorted (l : list string) : list string :=
  fold_right insert_sorted [] l.

Fixpoint chars (s : string) : list string :=
  match s with
  | EmptyString => []
  | String c r => String c EmptyString :: chars r
  end.

Fixpoint all_str (l : list pyval) : option (list string) :=
  match l with
  | [] => Some []
  | PStr s :: r => option_map (cons s) (all_str r)
  | _ :: _ => None
  end.

(** [sep.join(sorted(v))]: defined when iterating [v] yields strings (a list
    of [str], a [dict], a [str]); any other value ends in a [TypeError],
    raised by [sorted] or by [join] (its text is not modelled). *)
Definition join_sorted (sep : string) (v : pyval) : outcome string :=
  let strings :=
    match v with
    | PList l => all_str l
    | PDict d => Some (dict_keys d)
    | PStr s => Some (chars s)
    | _ => None
    end in
  match strings with
  | Some l => Ok (join sep (sorted l))
  | None => raise TypeError "expected an iterable of str"
  end.

End Py.

Notation "x <- m ;; k" := (Py.bind m (fun x => k))
  (at level 61, m at next level, right associativity).

(** ** The world outside the process *)

Module Sys.
Import Py.

(** What the code can observe of the file system. *)
Record filesystem : Type := {
  isdir : string -> bool;              (** [os.path.isdir] *)
  listdir : string -> list string;     (** [os.listdir] of a directory *)
  isfile : string -> bool;             (** [os.path.isfile] *)
  read_text : string -> outcome string (** [open(p, "r").read()] *)
}.

(** An ACP message: an ordered sequence of text parts. *)
Record MessagePart : Type := { content : string }.
Record Message : Type := { parts : list MessagePart }.

Definition text_message (s : string) : Message :=
  {| parts := [ {| content := s |} ] |}.

(** The [Run] that [client.run_sync] returns: [error] carries [str(run.error)]. *)
Record Run : Type := { output : list Message; error : option string }.

(** [client.run_sync(agent=..., input=...)] against [base_url]. *)
Definition transport : Type := string -> string -> list Message -> outcome Run.

(** A process: where its source file lives, its environment variables and
    the file system it sees. *)
Record process : Type := {
  base_dir : string;                   (** [os.path.dirname(__file__)] *)
  getenv : string -> option string;
  fs : filesystem
}.

(** [run.output and run.output[0].parts], then [run.output[0].parts[0].content] *)
Definition first_content (r : Run) : option string :=
  match output r with
  | m :: _ => match parts m with
              | p :: _ => Some (content p)
              | [] => None
              end
  | [] => None
  end.

End Sys.

(** ** mcpserver.py: the catalog discovery service *)

Module mcpserver.
Import Py Sys.

(** The catalog process and the remote metadata source it may fetch:
    [http_get url] is the body of [requests.get(url, timeout=10)] once
    [raise_for_status()] has passed, and raises otherwise. *)
Record host : Type := {
  proc : process;
  http_get : string -> outcome string
}.

Section Catalog.
Context `{PyLib}.

Definition DATA_DIR (p : process) : string := path_join (base_dir p) "data".
Definition LOCAL_META_PATH (p : process) : string :=
  path_join (base_dir p) "book_metadata.json".

(** The second [try] of [load_metadata]: the local document, [{}] on any
    failure. *)
Definition load_local (p : process) : outcome pyval :=
  catch Exception
    (text <- read_text (fs p) (LOCAL_META_PATH p) ;; loads text)
    (fun _ => Ok (PDict [])).

Definition load_metadata (h : host) : outcome pyval :=
  match getenv (proc h) "BOOK_METADATA_URL" with
  | Some (String c u) =>
      catch Exception
        (body <- http_get h (String c u) ;; loads body)
        (fun _ => load_local (proc h))
  | _ => load_local (proc h)
  end.

Definition scan_books (p : process) : list string :=
  if negb (isdir (fs p) (DATA_DIR p)) then []
  else
    map (fun f => fst (splitext f))
        (filter (fun f => endswith f ".txt"
                          && isfile (fs p) (path_join (DATA_DIR p) f))
                (listdir (fs p) (DATA_DIR p))).

(** [input[0].parts[0].content if input and input[0].parts else ""] *)
Definition prompt_of (input : list Message) : string :=
  match input with
  | m :: _ => match parts m with
              | part :: _ => content part
              | [] => EmptyString
              end
  | [] => EmptyString
  end.

(** [sorted(list(metadata.keys()) or scan_books())]: the keys the
    [__LIST__] branch serialises. *)
Definition listed_keys (p : process) (metadata : pyval) : outcome (list string) :=
  ks <- keys metadata ;;
  Ok (sorted (match ks with [] => scan_books p | _ => ks end)).

Definition book_catalog_agent (h : host) (input : list Message)
  : outcome (list Message) :=
  let prompt := prompt_of input in
  metadata <- load_metadata h ;;
  if String.eqb prompt "__LIST__" then
    ks <- listed_keys (proc h) metadata ;;
    Ok [text_message (json_dumps (PList (map PStr ks)))]
  else if startswith prompt "__META__:" then
    key <- index (split1 ":"%char prompt) 1 ;;
    meta <- get metadata key (PDict []) ;;
    Ok [text_message (json_dumps meta)]
  else Ok [text_message "{}"].

End Catalog.
End mcpserver.

(** ** main.py: normaliser, specialist client and the interactive client *)

Module main.
Import Py Sys.

Definition AGENTS : list (string * (string * string)) :=
  [ ("critic", ("http://127.0.0.1:8002", "literary_critic_agent"));
    ("archivist", ("http://127.0.0.1:8001", "archivist_agent"));
    ("catalog", ("http://127.0.0.1:8003", "book_catalog_server")) ].

Definition ALIASES : list (string * string) :=
  [ ("pride and prejudice", "prideandprejudice");
    ("pride & prejudice", "prideandprejudice");
    ("prideand predjudice", "prideandprejudice") ].

(** [d.get(k)] on a dictionary with string keys. *)
Fixpoint lookup {A : Type} (k : string) (d : list (string * A)) : option A :=
  match d with
  | [] => None
  | (k', v) :: rest => if String.eqb k' k then Some v else lookup k rest
  end.

Definition normalize_key (user_key : string) : string :=
  let k := lower (strip user_key) in
  match lookup k ALIASES with
  | Some canonical => canonical
  | None => k
  end.

Section Client.
Context `{PyLib}.
Variable net : transport.

Definition META_PATH (p : process) : string :=
  path_join (base_dir p) "book_metadata.json".

Definition load_metadata (p : process) : outcome pyval :=
  catch Exception
    (text <- read_text (fs p) (META_PATH p) ;; loads text)
    (fun _ => Ok (PDict [])).

Definition call_agent (base_url agent_name text : string) : outcome string :=
  run <- net base_url agent_name [text_message text] ;;
  match first_content run with
  | Some c => Ok c
  | None =>
      match error run with
      | Some e => Ok ("[ERROR] " ++ e)
      | None => Ok "[EMPTY RESPONSE]"
      end
  end.

(** The terminal: the active selection, what remains to be typed, and what
    has been printed so far (one entry per [print] call or prompt). *)
Record console : Type := {
  current : string;
  stdin : list string;
  stdout : list string
}.

Inductive flow : Type := Continue | Break.

Definition print (line : string) (c : console) : console :=
  {| current := current c; stdin := stdin c; stdout := (stdout c ++ [line])%list |}.

Definition set_current (name : string) (c : console) : console :=
  {| current := name; stdin := stdin c; stdout := stdout c |}.

(** [input(prompt)]: the prompt is written, then a line is read;
    [EOFError] at the end of the input. *)
Definition input_ (prompt : string) (c : console) : outcome string * console :=
  let c' := print prompt c in
  match stdin c' with
  | [] => (raise EOFError "EOF when reading a line", c')
  | line :: rest =>
      (Ok line, {| current := current c'; stdin := rest; stdout := stdout c' |})
  end.

(** [AGENTS[name]] *)
Definition agent_entry (name : string) : outcome (string * string) :=
  match lookup name AGENTS with
  | Some e => Ok e
  | None => raise KeyError ("'" ++ name ++ "'")
  end.

Definition print_banner (cur : string) (c : console) : outcome console :=
  let c := print (nl ++ "AI Librarian CLI (ACP Protocol Demo)") c in
  let c := print "----------------------------------" c in
  let c := print "Commands:" c in
  let c := print "  /agents                List available agents" c in
  let c := print "  /use <agent>          Switch active agent (critic | archivist | catalog)" c in
  let c := print "  /list                 List available books (via critic or catalog)" c in
  let c := print "  /meta <book_key>      Show metadata for a book (from book_metadata.json)" c in
  let c := print "  /help                 Show help" c in
  let c := print "  /exit                 Quit" c in
  e <- agent_entry cur ;;
  Ok (print (nl ++ "Active agent: " ++ cur ++ " -> " ++ snd e ++ " @ " ++ fst e) c).

Definition mem (x : string) (l : list string) : bool :=
  existsb (String.eqb x) l.

(** [print("[Response]", await call_agent(url, agent_name, text))] after the
    request line. *)
Definition request (url agent_name text : string) (c : console)
  : outcome console :=
  let c := print (nl ++ "[Request] " ++ agent_name ++ " <= " ++ text) c in
  answer <- call_agent url agent_name text ;;
  Ok (print ("[Response] " ++ answer) c).

(** One turn of the [while True] loop of [interactive]. *)
Definition loop_body (p : process) (c : console) : outcome (flow * console) :=
  match input_ (nl ++ "> ") c with
  | (Raise e, c) =>
      match exn_cls e with
      | EOFError => Ok (Break, print (nl ++ "Exiting...") c)
      | _ => Raise e
      end
  | (Ok line, c) =>
      let user_input := strip line in
      match user_input with
      | EmptyString => Ok (Continue, c)
      | _ =>
      if mem (lower user_input) ["/exit"; "exit"; "quit"; ":q"] then
        Ok (Break, print "Goodbye!" c)
      else if mem (lower user_input) ["/help"; "help"] then
        c <- print_banner (current c) c ;; Ok (Continue, c)
      else if mem (lower user_input) ["/agents"; "agents"] then
        Ok (Continue,
            fold_left (fun c e =>
                         print ("- " ++ fst e ++ ": " ++ snd (snd e)
                                  ++ " @ " ++ fst (snd e)) c)
                      AGENTS c)
      else if startswith (lower user_input) "/use " then
        let name := lower (strip (snd (partition " "%char user_input))) in
        match lookup name AGENTS with
        | Some (url, agent_name) =>
            let c := set_current name c in
            Ok (Continue,
                print ("Switched to '" ++ name ++ "' -> " ++ agent_name
                         ++ " @ " ++ url) c)
        | None =>
            Ok (Continue,
                print ("Unknown agent '" ++ name ++ "'. Try one of: "
                         ++ join ", " (map fst AGENTS)) c)
        end
      else if startswith (lower user_input) "/meta " then
        let key := normalize_key (snd (partition " "%char user_input)) in
        metadata <- load_metadata p ;;
        meta <- get metadata key PNone ;;
        if negb (truthy meta) then
          Ok (Continue, print ("No metadata found for '" ++ key ++ "'.") c)
        else Ok (Continue, print (json_dumps_indent2 meta) c)
      else if mem (lower user_input) ["/list"; "list"] then
        c <- match lookup "critic" AGENTS with
             | Some (url, agent_name) =>
                 request url agent_name "List the available books." c
             | None =>
                 e <- agent_entry "catalog" ;;
                 request (fst e) (snd e) "list_available_books" c
             end ;;
        Ok (Continue, c)
      else
        e <- agent_entry (current c) ;;
        let (url, agent_name) := e in
        if String.eqb (current c) "archivist" then
          match loads user_input with
          | Ok _ =>
              c <- request url agent_name user_input c ;; Ok (Continue, c)
          | Raise err =>
              match exn_cls err with
              | JSONDecodeError =>
                  match input_ "Book key (e.g., mobydick, frankenstein): " c with
                  | (Raise e, _) => Raise e
                  | (Ok answer, c) =>
                      let book_key := normalize_key (strip answer) in
                      let payload :=
                        json_dumps (PDict [("book_title", PStr book_key);
                                           ("query", PStr user_input)]) in
                      c <- request url agent_name payload c ;; Ok (Continue, c)
                  end
              | _ => Raise err
              end
          end
        else
          c <- request url agent_name user_input c ;; Ok (Continue, c)
      end
  end.

(** The [while True] loop: every turn that continues has read a line, so
    [fuel] turns are enough when [fuel] exceeds the lines left to read. *)
Fixpoint run_loop (fuel : nat) (p : process) (c : console)
  : option (outcome console) :=
  match fuel with
  | O => None
  | S fuel' =>
      match loop_body p c with
      | Raise e => Some (Raise e)
      | Ok (Break, c') => Some (Ok c')
      | Ok (Continue, c') => run_loop fuel' p c'
      end
  end.

Definition interactive (p : process) (typed : list string)
  : option (outcome console) :=
  let c := {| current := "critic"; stdin := typed; stdout := [] |} in
  match print_banner (current c) c with
  | Raise e => Some (Raise e)
  | Ok c => run_loop (S (List.length typed)) p c
  end.

End Client.
End main.

(** ** smolagents_server.py: the query router *)

Module smolagents_server.
Import Py Sys.

(** The four tools handed to the decision function. *)
Record toolset : Type := {
  tool_list_available_books : outcome pyval;
  tool_get_book_metadata : string -> outcome pyval;
  tool_archivist_agent : string -> outcome string;
  tool_historian_agent_tool : string -> outcome string
}.

(** The router process and its collaborators: the ACP transport, the
    historian's [CodeAgent.run] and [str(ToolCallingAgent(tools).run(prompt))],
    both opaque. *)
Record env : Type := {
  proc : process;
  net : transport;
  historian_run : string -> outcome string;
  reasoner : toolset -> string -> outcome string
}.

(** What [@smoltool] reads of a function definition: its name, its
    parameters, and the parameters that the [Args:] section of its
    docstring describes. *)
Record signature : Type := {
  def_name : string;
  def_params : list string;
  described : list string
}.

(** [@smoltool] above a definition: the tool made of [body], unless a
    parameter has no description in the docstring; building the schema
    of the tool then raises, with a text that names the function and the
    parameter. *)
Definition smoltool {A : Type} (s : signature) (body : A) : outcome A :=
  match find (fun a => negb (existsb (String.eqb a) (described s)))
             (def_params s) with
  | Some a =>
      raise DocstringParsingException
        ("Cannot generate JSON schema for " ++ def_name s
           ++ " because the docstring has no description for the argument '"
           ++ a ++ "'")
  | None => Ok body
  end.

Section Router.
Context `{PyLib}.

(** The remote tool, defined when the module is loaded ([Args: input]):
    one ACP call to the archivist, every failure rendered as text. *)
Definition archivist_agent (e : env) (input : string) : outcome string :=
  catch Exception
    (run <- net e "http://127.0.0.1:8001" "archivist_agent" [text_message input] ;;
     match first_content run with
     | Some c => Ok c
     | None => Ok "Archivist returned no content."
     end)
    (fun err => Ok ("Error communicating with Archivist agent: " ++ exn_str err)).

Definition DATA_DIR (p : process) : string := path_join (base_dir p) "data".
Definition META_PATH (p : process) : string :=
  path_join (base_dir p) "book_metadata.json".

Definition USE_MCP (p : process) : bool :=
  let v := match getenv p "USE_MCP_DISCOVERY" with Some v => v | None => "0" end in
  String.eqb v "1" || String.eqb v "true" || String.eqb v "True".

Definition _scan_books (p : process) : list string :=
  if negb (isdir (fs p) (DATA_DIR p)) then []
  else
    map (fun f => fst (splitext f))
        (filter (fun f => endswith f ".txt"
                          && isfile (fs p) (path_join (DATA_DIR p) f))
                (listdir (fs p) (DATA_DIR p))).

Definition _load_metadata (p : process) : outcome pyval :=
  catch Exception
    (text <- read_text (fs p) (META_PATH p) ;; loads text)
    (fun _ => Ok (PDict [])).

(** The [try] block shared by the two functions of the [if USE_MCP:]
    branch: ask the catalog service, decode the first part of its answer;
    [None] when the run came back without a part. *)
Definition ask_catalog (e : env) (command : string) : outcome (option pyval) :=
  run <- net e "http://127.0.0.1:8003" "book_catalog_agent" [text_message command] ;;
  match first_content run with
  | Some c => v <- loads c ;; Ok (Some v)
  | None => Ok None
  end.

(** The bodies of the two functions of the [if USE_MCP:] branch. *)
Definition list_available_books_mcp (e : env) : outcome pyval :=
  let fallback := Ok (PList (map PStr (_scan_books (proc e)))) in
  match ask_catalog e "__LIST__" with
  | Ok (Some v) => Ok v
  | Ok None => fallback
  | Raise err => if Exception (exn_cls err) then fallback else Raise err
  end.

Definition get_book_metadata_mcp (e : env) (book_key : string) : outcome pyval :=
  let fallback := meta <- _load_metadata (proc e) ;; get meta book_key (PDict []) in
  match ask_catalog e ("__META__:" ++ book_key) with
  | Ok (Some v) => Ok v
  | Ok None => fallback
  | Raise err => if Exception (exn_cls err) then fallback else Raise err
  end.

(** The bodies of the two functions of the [else:] branch. *)
Definition list_available_books_local (e : env) : outcome pyval :=
  Ok (PList (map PStr (_scan_books (proc e)))).

Definition get_book_metadata_local (e : env) (book_key : string) : outcome pyval :=
  meta <- _load_metadata (proc e) ;; get meta book_key (PDict []).

Definition historian_agent_tool (e : env) (query : string) : outcome string :=
  historian_run e query.

(** The tools of the agent, defined and decorated in the order of the
    source, each definition with the parameters it has and the ones its
    docstring describes: [get_book_metadata] of the [if USE_MCP:] branch
    has a docstring of one line, without [Args:]. *)
Definition all_tools (e : env) : outcome toolset :=
  discovery <-
    (if USE_MCP (proc e) then
       l <- smoltool {| def_name := "list_available_books";
                        def_params := []; described := [] |}
                     (list_available_books_mcp e) ;;
       g <- smoltool {| def_name := "get_book_metadata";
                        def_params := ["book_key"]; described := [] |}
                     (get_book_metadata_mcp e) ;;
       Ok (l, g)
     else
       l <- smoltool {| def_name := "list_available_books";
                        def_params := []; described := [] |}
                     (list_available_books_local e) ;;
       g <- smoltool {| def_name := "get_book_metadata";
                        def_params := ["book_key"]; described := ["book_key"] |}
                     (get_book_metadata_local e) ;;
       Ok (l, g)) ;;
  h <- smoltool {| def_name := "historian_agent_tool";
                   def_params := ["query"]; described := ["query"] |}
                (historian_agent_tool e) ;;
  Ok {| tool_list_available_books := fst discovery;
        tool_get_book_metadata := snd discovery;
        tool_archivist_agent := archivist_agent e;
        tool_historian_agent_tool := h |}.

(** [list_available_books()] and [get_book_metadata(k)] as the body of the
    agent and its decision function can call them: the tools that the
    definitions above have bound to these names. *)
Definition list_available_books (e : env) : outcome pyval :=
  tools <- all_tools e ;; tool_list_available_books tools.

Definition get_book_metadata (e : env) (book_key : string) : outcome pyval :=
  tools <- all_tools e ;; tool_get_book_metadata tools book_key.

Definition NO_BOOKS : string :=
  "No books found in the library. Add .txt files to the ai_librarian/data/ folder.".

(** The test of the fast path on the lower-cased prompt. *)
Definition fast_path (lc : string) : bool :=
  (contains "book" lc || contains "library" lc)
  && (contains "list" lc || contains "available" lc || contains "have" lc).

(** The agent: the tools are defined first, then the prompt is read. *)
Definition literary_critic_agent (e : env) (input : list Message)
  : outcome (list Message) :=
  tools <- all_tools e ;;
  m <- index input 0 ;;
  part <- index (parts m) 0 ;;
  let prompt := content part in
  let lc := lower prompt in
  if fast_path lc then
    books <- tool_list_available_books tools ;;
    text <- (if negb (truthy books) then Ok NO_BOOKS
             else
               listing <- join_sorted (nl ++ "- ") books ;;
               Ok ("Available books (use these keys):" ++ nl ++ "- " ++ listing)) ;;
    Ok [text_message text]
  else
    response <- reasoner e tools prompt ;;
    Ok [text_message response].

End Router.
End smolagents_server.

(** ** crew_agent_server.py: the archivist specialist *)

Module crew_agent_server.
Import Py Sys.

(** The archivist process; [crew_kickoff filename book_title query] is
    [str(await crew.kickoff_async())] for the retrieval pipeline built over
    [filename], opaque. *)
Record env : Type := {
  proc : process;
  crew_kickoff : string -> pyval -> pyval -> outcome string
}.

Section Archivist.
Context `{PyLib}.

Definition data_dir (p : process) : string := path_join (base_dir p) "data".

(** The body of the [try]: the three values it binds. *)
Definition parse_request (p : process) (input : list Message)
  : outcome (pyval * pyval * string) :=
  m <- index input 0 ;;
  part <- index (parts m) 0 ;;
  request_data <- loads (content part) ;;
  book_title <- getitem request_data "book_title" ;;
  query <- getitem request_data "query" ;;
  let filename := path_join (data_dir p) (format book_title ++ ".txt") in
  Ok (book_title, query, filename).

Definition handled (c : exn_class) : bool :=
  match c with
  | JSONDecodeError | KeyError => true
  | _ => false
  end.

Definition INVALID_INPUT : string :=
  "Invalid input format. Please provide a JSON string with 'book_title' and 'query'. Error: ".

Definition available_keys (p : process) : list string :=
  if isdir (fs p) (data_dir p) then
    map (fun f => fst (splitext f))
        (filter (fun f => endswith f ".txt") (listdir (fs p) (data_dir p)))
  else [].

Definition archivist_agent (e : env) (input : list Message)
  : outcome (list Message) :=
  match parse_request (proc e) input with
  | Raise err =>
      if handled (exn_cls err)
      then Ok [text_message (INVALID_INPUT ++ exn_str err)]
      else Raise err
  | Ok (book_title, query, filename) =>
      if negb (isfile (fs (proc e)) filename) then
        let available := available_keys (proc e) in
        head <- str_add "Requested book not found: '" book_title ;;
        Ok [text_message
              (head ++ "'. Ensure the 'book_title' matches one of: "
                    ++ join ", " available)]
      else
        task_output <- crew_kickoff e filename book_title query ;;
        Ok [text_message task_output]
  end.

End Archivist.
End crew_agent_server.

(** ** scripts/list_books.py: the one-shot listing script *)

Module list_books.
Import Py Sys.

Section Script.
Variable net : transport.

(** [main()]: one request to the router, one printed line. The result is
    what has been printed. *)
Definition main : outcome (list string) :=
  run <- net "http://127.0.0.1:8002" "literary_critic_agent"
             [text_message "List the available books."] ;;
  match first_content run with
  | Some c => Ok [c]
  | None =>
      match error run with
      | Some e => Ok ["ERROR: " ++ e]
      | None => Ok ["EMPTY RESPONSE"]
      end
  end.

End Script.
End list_books.

(** ** A reference codec, for concrete runs

    A decoder for the JSON grammar and the two encoders, written after the
    behaviour of the [json] module on texts over U+0000..U+00FF. It is only
    used to run the code on concrete inputs: no theorem below depends on
    how it decodes. An escape above [u00FF] and the exact wording of a
    decoding error are outside it, and it never gives [DecodeCrash]: the
    texts of the concrete runs are far from the interpreter's limits. *)

Module Ref.
Import Py.

Definition is_ws (c : ascii) : bool :=
  let n := nat_of_ascii c in ((n =? 32) || (n =? 9) || (n =? 10) || (n =? 13))%nat.

Fixpoint skip_ws (s : string) : string :=
  match s with
  | String c r => if is_ws c then skip_ws r else s
  | EmptyString => EmptyString
  end.

Definition digit_val (c : ascii) : option nat :=
  let n := nat_of_ascii c in
  if ((48 <=? n) && (n <=? 57))%nat then Some (n - 48) else None.

Definition hex_val (c : ascii) : option nat :=
  let n := nat_of_ascii c in
  if ((48 <=? n) && (n <=? 57))%nat then Some (n - 48)
  else if ((97 <=? n) && (n <=? 102))%nat then Some (n - 87)
  else if ((65 <=? n) && (n <=? 70))%nat then Some (n - 55)
  else None.

Definition simple_escape (c : ascii) : option ascii :=
  match nat_of_ascii c with
  | 34 => Some (ascii_of_nat 34)    (* quote *)
  | 92 => Some (ascii_of_nat 92)    (* backslash *)
  | 47 => Some (ascii_of_nat 47)    (* slash *)
  | 98 => Some (ascii_of_nat 8)     (* b *)
  | 102 => Some (ascii_of_nat 12)   (* f *)
  | 110 => Some (ascii_of_nat 10)   (* n *)
  | 114 => Some (ascii_of_nat 13)   (* r *)
  | 116 => Some (ascii_of_nat 9)    (* t *)
  | _ => None
  end.

Definition cons_char (c : ascii) (r : option (string * string))
  : option (string * string) :=
  match r with
  | Some (t, rest) => Some (String c t, rest)
  | None => None
  end.

(** The body of a string, after its opening quote. *)
Fixpoint read_string (s : string) : option (string * string) :=
  match s with
  | EmptyString => None
  | String c r =>
      match nat_of_ascii c with
      | 34 => Some (EmptyString, r)
      | 92 =>
          match r with
          | String e r' =>
              match simple_escape e with
              | Some ch => cons_char ch (read_string r')
              | None =>
                  match nat_of_ascii e, r' with
                  | 117, String h1 (String h2 (String h3 (String h4 r''))) =>
                      match hex_val h1, hex_val h2, hex_val h3, hex_val h4 with
                      | Some 0, Some 0, Some a, Some b =>
                          cons_char (ascii_of_nat (16 * a + b)) (read_string r'')
                      | _, _, _, _ => None
                      end
                  | _, _ => None
                  end
              end
          | EmptyString => None
          end
      | n => if (n <? 32)%nat then None else cons_char c (read_string r)
      end
  end.

Fixpoint span_digits (s : string) : string * string :=
  match s with
  | String c r =>
      match digit_val c with
      | Some _ => let (d, rest) := span_digits r in (String c d, rest)
      | None => (EmptyString, s)
      end
  | EmptyString => (EmptyString, EmptyString)
  end.

Fixpoint digits_value (acc : Z) (s : string) : Z :=
  match s with
  | String c r =>
      digits_value (10 * acc + Z.of_nat (match digit_val c with Some d => d | None => 0 end)) r
  | EmptyString => acc
  end.

Fixpoint has_nonzero_digit (s : string) : bool :=
  match s with
  | String c r =>
      match digit_val c with
      | Some (S _) => true
      | _ => has_nonzero_digit r
      end
  | EmptyString => false
  end.

(** A number: an optional minus, an integer part without leading zeros,
    an optional fraction, an optional exponent. *)
Definition read_number (s : string) : option (pyval * string) :=
  let (neg, s1) := match s with
                   | String "-"%char r => (true, r)
                   | _ => (false, s)
                   end in
  let (ds, s2) := span_digits s1 in
  match ds with
  | EmptyString => None
  | String d0 more =>
      let (int_part, s3) :=
        if Ascii.eqb d0 "0"%char then ("0", more ++ s2) else (ds, s2) in
      let (frac, s4) :=
        match s3 with
        | String "."%char r =>
            match span_digits r with
            | (EmptyString, _) => (EmptyString, s3)
            | (f, rest) => ("." ++ f, rest)
            end
        | _ => (EmptyString, s3)
        end in
      let (expo, s5) :=
        match s4 with
        | String e r =>
            if Ascii.eqb e "e"%char || Ascii.eqb e "E"%char then
              let (sign, r') :=
                match r with
                | String g r1 =>
                    if Ascii.eqb g "+"%char || Ascii.eqb g "-"%char
                    then (String g EmptyString, r1) else (EmptyString, r)
                | EmptyString => (EmptyString, r)
                end in
              match span_digits r' with
              | (EmptyString, _) => (EmptyString, s4)
              | (x, rest) => (String e sign ++ x, rest)
              end
            else (EmptyString, s4)
        | EmptyString => (EmptyString, s4)
        end in
      let sign := if neg then "-" else EmptyString in
      match frac, expo with
      | EmptyString, EmptyString =>
          let n := digits_value 0 int_part in
          Some (PInt (if neg then (- n)%Z else n), s5)
      | _, _ =>
          Some (PFloat (has_nonzero_digit int_part || has_nonzero_digit frac)
                       (sign ++ int_part ++ frac ++ expo), s5)
      end
  end.

Definition strip_prefix (p s : string) : option string :=
  if String.prefix p s
  then Some (substring (String.length p) (String.length s - String.length p) s)
  else None.

Definition read_literal (s : string) : option (pyval * string) :=
  match strip_prefix "null" s with Some r => Some (PNone, r) | None =>
  match strip_prefix "true" s with Some r => Some (PBool true, r) | None =>
  match strip_prefix "false" s with Some r => Some (PBool false, r) | None =>
  match strip_prefix "NaN" s with Some r => Some (PFloat true "nan", r) | None =>
  match strip_prefix "Infinity" s with Some r => Some (PFloat true "inf", r) | None =>
  match strip_prefix "-Infinity" s with Some r => Some (PFloat true "-inf", r) | None =>
  read_number s
  end end end end end end.

(** [d[k] = v] *)
Fixpoint dict_set (k : string) (v : pyval) (d : list (string * pyval))
  : list (string * pyval) :=
  match d with
  | [] => [(k, v)]
  | (k', v') :: rest =>
      if String.eqb k' k then (k, v) :: rest else (k', v') :: dict_set k v rest
  end.

Fixpoint read_value (fuel : nat) (s : string) : option (pyval * string) :=
  match fuel with
  | O => None
  | S fuel' =>
      match s with
      | String c r =>
          match nat_of_ascii c with
          | 34 =>
              match read_string r with
              | Some (t, rest) => Some (PStr t, rest)
              | None => None
              end
          | 91 =>
              match skip_ws r with
              | String "]"%char rest => Some (PList [], rest)
              | r' => read_items fuel' r' []
              end
          | 123 =>
              match skip_ws r with
              | String "}"%char rest => Some (PDict [], rest)
              | r' => read_members fuel' r' []
              end
          | _ => read_literal s
          end
      | EmptyString => None
      end
  end
with read_items (fuel : nat) (s : string) (acc : list pyval)
  : option (pyval * string) :=
  match fuel with
  | O => None
  | S fuel' =>
      match read_value fuel' s with
      | Some (v, rest) =>
          match skip_ws rest with
          | String "]"%char rest' => Some (PList (rev (v :: acc)), rest')
          | String ","%char rest' => read_items fuel' (skip_ws rest') (v :: acc)
          | _ => None
          end
      | None => None
      end
  end
with read_members (fuel : nat) (s : string) (acc : list (string * pyval))
  : option (pyval * string) :=
  match fuel with
  | O => None
  | S fuel' =>
      match s with
      | String c r =>
          match nat_of_ascii c, read_string r with
          | 34, Some (k, rest) =>
              match skip_ws rest with
              | String ":"%char rest1 =>
                  match read_value fuel' (skip_ws rest1) with
                  | Some (v, rest2) =>
                      match skip_ws rest2 with
                      | String "}"%char rest' =>
                          Some (PDict (dict_set k v acc), rest')
                      | String ","%char rest' =>
                          read_members fuel' (skip_ws rest') (dict_set k v acc)
                      | _ => None
                      end
                  | None => None
                  end
              | _ => None
              end
          | _, _ => None
          end
      | EmptyString => None
      end
  end.

Definition decode (s : string) : decoded :=
  match read_value (2 * String.length s + 2) (skip_ws s) with
  | Some (v, rest) =>
      match skip_ws rest with
      | EmptyString => Decoded v
      | _ => DecodeError "Extra data"
      end
  | None => DecodeError "Expecting value"
  end.

Definition hex_digit (n : nat) : ascii :=
  if (n <? 10)%nat then ascii_of_nat (48 + n) else ascii_of_nat (87 + n).

Definition u_escape (n : nat) : string :=
  "\u00" ++ String (hex_digit (n / 16)) (String (hex_digit (n mod 16)) EmptyString).

(** One character inside a JSON string; [only_ascii] is [ensure_ascii]. *)
Definition escape_char (only_ascii : bool) (c : ascii) : string :=
  match nat_of_ascii c with
  | 34 => "\" ++ dquote
  | 92 => "\\"
  | 10 => "\n"
  | 13 => "\r"
  | 9 => "\t"
  | 8 => "\b"
  | 12 => "\f"
  | n =>
      if (n <? 32)%nat || (only_ascii && (126 <? n)%nat) then u_escape n
      else String c EmptyString
  end.

Fixpoint escape (only_ascii : bool) (s : string) : string :=
  match s with
  | EmptyString => EmptyString
  | String c r => escape_char only_ascii c ++ escape only_ascii r
  end.

Definition quoted (only_ascii : bool) (s : string) : string :=
  dquote ++ escape only_ascii s ++ dquote.

Definition string_of_Z (n : Z) : string := NilZero.string_of_int (Z.to_int n).

(** [json.dumps(v)] *)
Fixpoint encode (v : pyval) : string :=
  match v with
  | PNone => "null"
  | PBool true => "true"
  | PBool false => "false"
  | PInt n => string_of_Z n
  | PFloat _ lit => lit
  | PStr s => quoted true s
  | PList l => "[" ++ join ", " (map encode l) ++ "]"
  | PDict d =>
      "{" ++ join ", " (map (fun kv => quoted true (fst kv) ++ ": " ++ encode (snd kv)) d)
          ++ "}"
  end.

Fixpoint pad (level : nat) : string :=
  match level with
  | O => EmptyString
  | S n => "  " ++ pad n
  end.

(** [json.dumps(v, indent=2, ensure_ascii=False)] *)
Fixpoint encode_indent (level : nat) (v : pyval) : string :=
  let sep := "," ++ nl ++ pad (S level) in
  match v with
  | PList ((_ :: _) as l) =>
      "[" ++ nl ++ pad (S level) ++ join sep (map (encode_indent (S level)) l)
          ++ nl ++ pad level ++ "]"
  | PDict ((_ :: _) as d) =>
      "{" ++ nl ++ pad (S level)
          ++ join sep (map (fun kv => quoted false (fst kv) ++ ": "
                                        ++ encode_indent (S level) (snd kv)) d)
          ++ nl ++ pad level ++ "}"
  | PStr s => quoted false s
  | _ => encode v
  end.

(** [repr(v)], strings between single quotes. *)
Fixpoint repr (v : pyval) : string :=
  match v with
  | PNone => "None"
  | PBool true => "True"
  | PBool false => "False"
  | PInt n => string_of_Z n
  | PFloat _ lit => lit
  | PStr s => "'" ++ s ++ "'"
  | PList l => "[" ++ join ", " (map repr l) ++ "]"
  | PDict d =>
      "{" ++ join ", " (map (fun kv => "'" ++ fst kv ++ "': " ++ repr (snd kv)) d) ++ "}"
  end.

End Ref.

#[export] Instance ref_lib : Py.PyLib := {|
  Py.json_loads := Ref.decode;
  Py.json_dumps := Ref.encode;
  Py.json_dumps_indent2 := Ref.encode_indent 0;
  Py.str_of := Ref.repr
|}.

(** ** Concrete worlds *)

Module World.
Import Py Sys.

(** A file system given by its directories (with their entries) and its
    regular files (with their text). *)
Definition mkfs (dirs : list (string * list string))
    (files : list (string * string)) : filesystem :=
  {| isdir := fun p => existsb (String.eqb p) (map fst dirs);
     listdir := fun p => match main.lookup p dirs with Some l => l | None => [] end;
     isfile := fun p => existsb (String.eqb p) (map fst files);
     read_text := fun p => match main.lookup p files with
                           | Some t => Ok t
                           | None => raise OSError "No such file or directory"
                           end |}.

Definition q (s : string) : string := dquote ++ s ++ dquote.

Definition no_env : string -> option string := fun _ => None.

(** Two books on disk, no metadata document. *)
Definition two_books : process :=
  {| base_dir := "/srv/librarian";
     getenv := no_env;
     fs := mkfs [("/srv/librarian/data", ["mobydick.txt"; "frankenstein.txt"])]
                [("/srv/librarian/data/mobydick.txt", "Call me Ishmael.");
                 ("/srv/librarian/data/frankenstein.txt", "You will rejoice to hear.")] |}.

(** One book on disk, and a metadata document about another one. *)
Definition metadata_elsewhere : process :=
  {| base_dir := "/srv/librarian";
     getenv := no_env;
     fs := mkfs [("/srv/librarian/data", ["frankenstein.txt"])]
                [("/srv/librarian/data/frankenstein.txt", "You will rejoice to hear.");
                 ("/srv/librarian/book_metadata.json",
                  "{" ++ q "mobydick" ++ ": {" ++ q "title" ++ ": " ++ q "Moby Dick" ++ "}}")] |}.

(** No service answers: every ACP call is refused. *)
Definition unreachable : transport :=
  fun _ _ _ => raise ConnectError "All connection attempts failed".

Definition no_http : string -> outcome string :=
  fun _ => raise ConnectError "Connection refused".

Definition catalog_of (p : process) : mcpserver.host :=
  {| mcpserver.proc := p; mcpserver.http_get := no_http |}.

Definition router_of (p : process) (n : transport) : smolagents_server.env :=
  {| smolagents_server.proc := p;
     smolagents_server.net := n;
     smolagents_server.historian_run := fun _ => Ok "Published in 1851.";
     smolagents_server.reasoner := fun _ _ => Ok "A tale of obsession." |}.

Definition archivist_of (p : process) : crew_agent_server.env :=
  {| crew_agent_server.proc := p;
     crew_agent_server.crew_kickoff := fun _ _ _ => Ok "Call me Ishmael." |}.

Definition with_env (p : process) (name value : string) : process :=
  {| base_dir := base_dir p;
     getenv := fun n => if String.eqb n name then Some value else getenv p n;
     fs := fs p |}.

(** One book on disk, and a metadata document that is a JSON array. *)
Definition metadata_is_array : process :=
  {| base_dir := "/srv/librarian";
     getenv := no_env;
     fs := mkfs [("/srv/librarian/data", ["frankenstein.txt"])]
                [("/srv/librarian/data/frankenstein.txt", "You will rejoice to hear.");
                 ("/srv/librarian/book_metadata.json", "[]")] |}.

(** A content directory with a book, a sub-directory whose name ends in
    [.txt] and a file of another kind. *)
Definition mixed_entries : process :=
  {| base_dir := "/srv/librarian";
     getenv := no_env;
     fs := mkfs [("/srv/librarian/data", ["mobydick.txt"; "drafts.txt"; "notes.md"]);
                 ("/srv/librarian/data/drafts.txt", [])]
                [("/srv/librarian/data/mobydick.txt", "Call me Ishmael.");
                 ("/srv/librarian/data/notes.md", "to do");
                 ("/etc/motd.txt", "Welcome.")] |}.

(** A remote metadata source that serves [body] at every address. *)
Definition remote_source (p : process) (body : string) : mcpserver.host :=
  {| mcpserver.proc :=
       with_env p "BOOK_METADATA_URL" "http://metadata.example/books.json";
     mcpserver.http_get := fun _ => Ok body |}.

(** A transport behind which one agent runs at [url] under [name]: its
    messages are the output of the run, and an exception that it raises
    comes back as the error of a run without output (the text of the
    exception stands for what the server reports); every other address
    refuses the connection. *)
Definition serving (url name : string)
    (agent : list Message -> outcome (list Message)) : transport :=
  fun u n input =>
    if String.eqb u url && String.eqb n name then
      match agent input with
      | Ok out => Ok {| output := out; error := None |}
      | Raise err => Ok {| output := []; error := Some (exn_str err) |}
      end
    else raise ConnectError "All connection attempts failed".

(** A transport that answers every request with the same text. *)
Definition echoing (answer : string) : transport :=
  fun _ _ _ => Ok {| output := [text_message answer]; error := None |}.

End World.

(** ** Vocabulary of the properties *)

Module Spec.
Import Py Sys.

(** A string that does not begin with a space. *)
Definition clean_head (s : string) : Prop :=
  match s with
  | EmptyString => True
  | String c _ => isspace c = false
  end.

(** Ascending by code points. *)
Definition ascending : list string -> Prop :=
  Sorted (fun a b => String.leb a b = true).

Definition list_request : list Message := [text_message "__LIST__"].
Definition meta_request (k : string) : list Message :=
  [text_message ("__META__:" ++ k)].


(** [isinstance(v, dict)] *)
Definition is_dict (v : pyval) : bool :=
  match v with
  | PDict _ => true
  | _ => false
  end.

(** The catalog service endpoint is down: every call to it fails. *)
Definition catalog_down (e : smolagents_server.env) : Prop :=
  forall agent input,
    raises (smolagents_server.net e "http://127.0.0.1:8003" agent input).

(** The same router with another decision function. *)
Definition with_reasoner (e : smolagents_server.env)
    (r : smolagents_server.toolset -> string -> outcome string)
  : smolagents_server.env :=
  {| smolagents_server.proc := smolagents_server.proc e;
     smolagents_server.net := smolagents_server.net e;
     smolagents_server.historian_run := smolagents_server.historian_run e;
     smolagents_server.reasoner := r |}.

(** A request whose first part carries [text]. *)
Definition carries (input : list Message) (text : string) : Prop :=
  exists more_parts more_messages,
    input = {| parts := {| content := text |} :: more_parts |} :: more_messages.

(** The same router behind another transport. *)
Definition with_net (e : smolagents_server.env) (n : transport)
  : smolagents_server.env :=
  {| smolagents_server.proc := smolagents_server.proc e;
     smolagents_server.net := n;
     smolagents_server.historian_run := smolagents_server.historian_run e;
     smolagents_server.reasoner := smolagents_server.reasoner e |}.

(** The transport reaches [agent] at [url] under [name]: a run of the agent
    that returns messages comes back with these messages as its output. *)
Definition reaches (n : transport) (url name : string)
    (agent : list Message -> outcome (list Message)) : Prop :=
  forall input out,
    agent input = Ok out ->
    exists err, n url name input = Ok {| output := out; error := err |}.

(** Every request gets a completed run. *)
Definition always_answers (n : transport) : Prop :=
  forall url name input, exists run, n url name input = Ok run.

(** A stripped line that none of the commands of the interactive client
    takes: it is sent to the active agent. *)
Definition plain_question (u : string) : bool :=
  negb (String.eqb u EmptyString)
  && negb (main.mem (lower u) ["/exit"; "exit"; "quit"; ":q"])
  && negb (main.mem (lower u) ["/help"; "help"])
  && negb (main.mem (lower u) ["/agents"; "agents"])
  && negb (startswith (lower u) "/use ")
  && negb (startswith (lower u) "/meta ")
  && negb (main.mem (lower u) ["/list"; "list"]).

(** The active selection is one of the configured agents. *)
Definition configured (c : main.console) : Prop :=
  main.lookup (main.current c) main.AGENTS <> None.

(** A line that selects the archivist: [/use archivist], in any case and
    with any white space around the name. *)
Definition selects_archivist (line : string) : bool :=
  startswith (lower (strip line)) "/use "
  && String.eqb (lower (strip (snd (partition " "%char (strip line)))))
                "archivist".

(** The decoder takes the line: it gives a value or [JSONDecodeError]. *)
Definition decodable `{PyLib} (line : string) : Prop :=
  forall e, json_loads (strip line) <> DecodeCrash e.

(** The console once [prompts] have been written and answered. *)
Definition prompted (c : main.console) (prompts remaining : list string)
  : main.console :=
  {| main.current := main.current c;
     main.stdin := remaining;
     main.stdout := List.app (main.stdout c) prompts |}.

End Spec.

(** * Properties *)

Import Py Sys Spec.

(** ** Characters and strings *)

Section StringFacts.

Lemma lower_char_idem (c : ascii) : lower_char (lower_char c) = lower_char c.
Proof. destruct c as [[] [] [] [] [] [] [] []]; vm_compute; reflexivity. Qed.

Lemma isspace_lower_char (c : ascii) : isspace (lower_char c) = isspace c.
Proof. destruct c as [[] [] [] [] [] [] [] []]; vm_compute; reflexivity. Qed.

Lemma lower_idem (s : string) : lower (lower s) = lower s.
Proof.
  induction s as [|c s IH]; simpl; [reflexivity|].
  now rewrite lower_char_idem, IH.
Qed.

Lemma lower_lstrip (s : string) : lower (lstrip s) = lstrip (lower s).
Proof.
  induction s as [|c s IH]; simpl; [reflexivity|].
  rewrite isspace_lower_char. destruct (isspace c); [exact IH | reflexivity].
Qed.

Lemma lower_rstrip (s : string) : lower (rstrip s) = rstrip (lower s).
Proof.
  induction s as [|c s IH]; simpl; [reflexivity|].
  rewrite <- IH, isspace_lower_char.
  destruct (rstrip s) as [|d t]; simpl; [destruct (isspace c)|]; reflexivity.
Qed.

Lemma lower_strip (s : string) : lower (strip s) = strip (lower s).
Proof. unfold strip. now rewrite lower_rstrip, lower_lstrip. Qed.

Lemma lstrip_clean_head (s : string) : clean_head (lstrip s).
Proof.
  induction s as [|c s IH]; simpl; [exact I|].
  destruct (isspace c) eqn:E; [exact IH | exact E].
Qed.

Lemma lstrip_fixed (s : string) : clean_head s -> lstrip s = s.
Proof. destruct s as [|c s]; simpl; intros E; [|rewrite E]; reflexivity. Qed.

Lemma rstrip_clean_head (s : string) : clean_head s -> clean_head (rstrip s).
Proof.
  destruct s as [|c s]; simpl; intros E; [exact I|].
  destruct (rstrip s); [rewrite E|]; exact E.
Qed.

Lemma rstrip_idem (s : string) : rstrip (rstrip s) = rstrip s.
Proof.
  induction s as [|c s IH]; simpl; [reflexivity|].
  destruct (rstrip s) as [|d t] eqn:E.
  - destruct (isspace c) eqn:Ec; simpl; [|rewrite Ec]; reflexivity.
  - change (rstrip (String c (String d t)) = String c (String d t)).
    change (rstrip (String c (String d t)))
      with (match rstrip (String d t) with
            | EmptyString =>
                if isspace c then EmptyString else String c EmptyString
            | u => String c u
            end).
    now rewrite IH.
Qed.

Lemma strip_idem (s : string) : strip (strip s) = strip s.
Proof.
  unfold strip.
  rewrite (lstrip_fixed (rstrip (lstrip s))).
  - apply rstrip_idem.
  - apply rstrip_clean_head, lstrip_clean_head.
Qed.

(** Lower-casing a stripped string leaves nothing to strip or lower. *)
Lemma lower_strip_fixed (s : string) :
  lower (strip (lower (strip s))) = lower (strip s).
Proof. now rewrite <- (lower_strip (strip s)), strip_idem, lower_idem. Qed.

End StringFacts.

(** ** Key normaliser *)

(** C8. The key normaliser is idempotent: normalising a normalised key
    changes nothing, for every input string. *)
Theorem normalize_key_idempotent (x : string) :
  main.normalize_key (main.normalize_key x) = main.normalize_key x.
Proof.
  unfold main.normalize_key at 2 3.
  destruct (main.lookup (lower (strip x)) main.ALIASES) as [v|] eqn:E.
  - assert (Hv : v = "prideandprejudice").
    { revert E. unfold main.ALIASES. cbn [main.lookup].
      repeat match goal with
             | |- context [String.eqb ?a ?b] => destruct (String.eqb a b)
             end; congruence. }
    subst v. reflexivity.
  - unfold main.normalize_key. rewrite lower_strip_fixed, E. reflexivity.
Qed.

(** ** Paths, extensions and sorting *)

Section PathFacts.

Lemma length_app (a b : string) :
  String.length (a ++ b) = String.length a + String.length b.
Proof. induction a as [|c a IH]; simpl; [reflexivity | now rewrite IH]. Qed.

Lemma substring_all (b : string) : substring 0 (String.length b) b = b.
Proof. induction b as [|c b IH]; simpl; [reflexivity | now rewrite IH]. Qed.

Lemma substring_app_left (a b : string) :
  substring 0 (String.length a) (a ++ b) = a.
Proof.
  induction a as [|c a IH]; simpl.
  - destruct b; reflexivity.
  - now rewrite IH.
Qed.

Lemma substring_app_right (a b : string) :
  substring (String.length a) (String.length b) (a ++ b) = b.
Proof. induction a as [|c a IH]; simpl; [apply substring_all | exact IH]. Qed.

Lemma endswith_app (a b : string) : endswith (a ++ b) b = true.
Proof.
  unfold endswith. rewrite length_app.
  replace (String.length a + String.length b - String.length b)
    with (String.length a) by lia.
  rewrite substring_app_right, String.eqb_refl, andb_true_r.
  apply Nat.leb_le. lia.
Qed.

Lemma rfind_app (c : ascii) (a b : string) :
  rfind c (a ++ b) =
  match rfind c b with
  | Some j => Some (String.length a + j)
  | None => rfind c a
  end.
Proof.
  induction a as [|d a IH]; simpl.
  - destruct (rfind c b); reflexivity.
  - rewrite IH. destruct (rfind c b); reflexivity.
Qed.

(** The stem of [k.txt] is [k], unless [k] is made of dots only. *)
Lemma splitext_txt (k : string) :
  rfind "/"%char k = None -> all_dots k = false ->
  fst (splitext (k ++ ".txt")) = k.
Proof.
  intros Hsep Hdots. unfold splitext.
  rewrite !rfind_app. simpl rfind. rewrite Hsep.
  rewrite Nat.add_0_r, Nat.sub_0_r, substring_app_left, Hdots.
  reflexivity.
Qed.

Lemma insert_sorted_perm (x : string) (l : list string) :
  Permutation (x :: l) (insert_sorted x l).
Proof.
  induction l as [|y l IH]; simpl; [reflexivity|].
  destruct (String.leb x y); [reflexivity|].
  rewrite perm_swap. now apply perm_skip.
Qed.

Lemma sorted_perm (l : list string) : Permutation l (sorted l).
Proof.
  induction l as [|x l IH]; simpl; [constructor|].
  rewrite <- insert_sorted_perm. now apply perm_skip.
Qed.

Lemma sorted_In (k : string) (l : list string) : In k (sorted l) <-> In k l.
Proof.
  split; apply Permutation_in;
    [apply Permutation_sym|]; apply sorted_perm.
Qed.

Lemma insert_sorted_ascending (x : string) (l : list string) :
  ascending l -> ascending (insert_sorted x l).
Proof.
  unfold ascending. induction 1 as [|y l Hl IH Hhd]; simpl.
  - repeat constructor.
  - destruct (String.leb x y) eqn:E.
    + constructor; [constructor; assumption | constructor; exact E].
    + constructor; [exact IH|].
      destruct l as [|z l]; simpl.
      * constructor. destruct (String.leb_total x y); congruence.
      * destruct (String.leb x z).
        -- constructor. destruct (String.leb_total x y); congruence.
        -- constructor. now inversion Hhd.
Qed.

Lemma sorted_ascending (l : list string) : ascending (sorted l).
Proof.
  induction l as [|x l IH]; simpl.
  - constructor.
  - now apply insert_sorted_ascending.
Qed.

End PathFacts.

(** ** Catalog discovery service (mcpserver.py) *)

Section CatalogFacts.
Context `{PyLib}.

Lemma load_local_ok (p : process) : exists v, mcpserver.load_local p = Ok v.
Proof.
  unfold mcpserver.load_local, catch.
  destruct (bind _ _) as [v|e]; simpl; eauto.
Qed.

(** Loading the metadata never raises. *)
Lemma load_metadata_ok (h : mcpserver.host) :
  exists v, mcpserver.load_metadata h = Ok v.
Proof.
  unfold mcpserver.load_metadata.
  destruct (getenv _ _) as [[|c u]|]; try apply load_local_ok.
  unfold catch. destruct (bind _ _) as [v|e]; eauto.
  simpl. apply load_local_ok.
Qed.


Lemma meta_request_key (k : string) :
  index (split1 ":"%char ("__META__:" ++ k)) 1 = Ok k.
Proof. reflexivity. Qed.

Lemma meta_request_prefix (k : string) :
  startswith ("__META__:" ++ k) "__META__:" = true.
Proof. unfold startswith. simpl. destruct k; reflexivity. Qed.

(** The answer to [__LIST__] is the serialised list of [listed_keys]. *)
Lemma list_request_answer (h : mcpserver.host) (metadata : pyval) (ks : list string) :
  mcpserver.load_metadata h = Ok metadata ->
  mcpserver.listed_keys (mcpserver.proc h) metadata = Ok ks ->
  mcpserver.book_catalog_agent h list_request
  = Ok [text_message (json_dumps (PList (map PStr ks)))].
Proof.
  intros Hm Hk. unfold mcpserver.book_catalog_agent. rewrite Hm. simpl.
  rewrite Hk. reflexivity.
Qed.

(** The answer to [__META__:k] is the serialised entry of [k], [{}] when
    the mapping has none. *)
Lemma meta_request_answer (h : mcpserver.host) (md : list (string * pyval)) (k : string) :
  mcpserver.load_metadata h = Ok (PDict md) ->
  mcpserver.book_catalog_agent h (meta_request k)
  = Ok [text_message
          (json_dumps (match dict_lookup k md with
                       | Some m => m
                       | None => PDict []
                       end))].
Proof.
  intros Hm. unfold mcpserver.book_catalog_agent. rewrite Hm.
  unfold meta_request. cbn [mcpserver.prompt_of text_message parts content bind].
  rewrite meta_request_prefix, meta_request_key. reflexivity.
Qed.

(** A regular file [k.txt] of the content directory is found by the scan. *)
Lemma scan_books_finds (p : process) (k : string) :
  isdir (fs p) (mcpserver.DATA_DIR p) = true ->
  In (k ++ ".txt") (listdir (fs p) (mcpserver.DATA_DIR p)) ->
  isfile (fs p) (path_join (mcpserver.DATA_DIR p) (k ++ ".txt")) = true ->
  rfind "/"%char k = None -> all_dots k = false ->
  In k (mcpserver.scan_books p).
Proof.
  intros Hdir Hin Hfile Hsep Hdots. unfold mcpserver.scan_books.
  rewrite Hdir. simpl. apply in_map_iff. exists (k ++ ".txt"). split.
  - now apply splitext_txt.
  - apply filter_In. split; [exact Hin|].
    now rewrite endswith_app, Hfile.
Qed.

(** C10. Any prompt that is neither [__LIST__] nor prefixed with
    [__META__:], the empty message included, is answered by the single
    message [{}]: the agent never fails on an unrecognised command. *)
Theorem unrecognised_command_answer (h : mcpserver.host) (input : list Message) :
  mcpserver.prompt_of input <> "__LIST__" ->
  startswith (mcpserver.prompt_of input) "__META__:" = false ->
  mcpserver.book_catalog_agent h input = Ok [text_message "{}"].
Proof.
  intros Hlist Hmeta. unfold mcpserver.book_catalog_agent.
  destruct (load_metadata_ok h) as [v ->]. simpl.
  apply String.eqb_neq in Hlist. rewrite Hlist, Hmeta. reflexivity.
Qed.


Lemma dict_lookup_absent (k : string) (md : list (string * pyval)) :
  dict_lookup k md = None -> ~ In k (dict_keys md).
Proof.
  induction md as [|[k' v] md IH]; simpl; [tauto|].
  destruct (String.eqb k' k) eqn:E; [discriminate|].
  apply String.eqb_neq in E. intros Hm [Hk | Hk]; [contradiction | now apply IH].
Qed.

(** C1, as amended. Let [k] be a key without [/] and not made of dots only
    (so not empty), whose file [k.txt] is a regular file of the content
    directory, and that the metadata mapping does not hold. [__META__:k]
    gets the empty object. When the mapping is empty, [__LIST__] answers
    with the sorted directory scan, and [k] is in it; when the mapping is
    not empty, [__LIST__] answers with the sorted keys of the mapping and
    nothing else, so [k] is not in it. *)
Theorem unlisted_file_resolution (h : mcpserver.host)
    (md : list (string * pyval)) (k : string) :
  mcpserver.load_metadata h = Ok (PDict md) ->
  dict_lookup k md = None ->
  isdir (fs (mcpserver.proc h)) (mcpserver.DATA_DIR (mcpserver.proc h)) = true ->
  In (k ++ ".txt")
     (listdir (fs (mcpserver.proc h)) (mcpserver.DATA_DIR (mcpserver.proc h))) ->
  isfile (fs (mcpserver.proc h))
         (path_join (mcpserver.DATA_DIR (mcpserver.proc h)) (k ++ ".txt")) = true ->
  rfind "/"%char k = None -> all_dots k = false ->
  mcpserver.book_catalog_agent h (meta_request k)
  = Ok [text_message (json_dumps (PDict []))]
  /\ exists ks,
       mcpserver.book_catalog_agent h list_request
       = Ok [text_message (json_dumps (PList (map PStr ks)))]
       /\ (md = [] ->
           ks = sorted (mcpserver.scan_books (mcpserver.proc h)) /\ In k ks)
       /\ (md <> [] ->
           ks = sorted (dict_keys md) /\ ~ In k ks).
Proof.
  intros Hm Hk Hdir Hin Hfile Hsep Hdots. split.
  - rewrite (meta_request_answer h md k Hm), Hk. reflexivity.
  - exists (sorted (match md with
                    | [] => mcpserver.scan_books (mcpserver.proc h)
                    | _ => dict_keys md
                    end)).
    split; [|split].
    + apply (list_request_answer h (PDict md)); [exact Hm|].
      destruct md; reflexivity.
    + intros ->. split; [reflexivity|].
      apply sorted_In. now apply scan_books_finds.
    + intros Hne. destruct md as [|entry md]; [contradiction|].
      split; [reflexivity|]. rewrite sorted_In.
      now apply dict_lookup_absent.
Qed.

End CatalogFacts.

(** The empty message is answered by [{}]. *)
Lemma unrecognised_command_answer_witness :
  mcpserver.prompt_of [] <> "__LIST__"
  /\ startswith (mcpserver.prompt_of []) "__META__:" = false
  /\ mcpserver.book_catalog_agent (World.catalog_of World.two_books) []
     = Ok [text_message "{}"].
Proof.
  split; [discriminate|]. split; [reflexivity|].
  apply unrecognised_command_answer; [discriminate | reflexivity].
Defined.


(** C1, as stated, fails: [frankenstein.txt] is on disk and absent from a
    non-empty metadata mapping, and [__LIST__] answers with the metadata
    keys only. *)
Lemma listing_prefers_metadata_keys :
  let h := World.catalog_of World.metadata_elsewhere in
  let md := [("mobydick", PDict [("title", PStr "Moby Dick")])] in
  mcpserver.load_metadata h = Ok (PDict md)
  /\ dict_lookup "frankenstein" md = None
  /\ In "frankenstein.txt"
        (listdir (fs (mcpserver.proc h)) (mcpserver.DATA_DIR (mcpserver.proc h)))
  /\ isfile (fs (mcpserver.proc h))
            (path_join (mcpserver.DATA_DIR (mcpserver.proc h)) "frankenstein.txt")
     = true
  /\ mcpserver.listed_keys (mcpserver.proc h) (PDict md) = Ok ["mobydick"]
  /\ ~ In "frankenstein" ["mobydick"]
  /\ mcpserver.book_catalog_agent h list_request
     = Ok [text_message ("[" ++ World.q "mobydick" ++ "]")].
Proof.
  cbv zeta. repeat split; try reflexivity.
  - left. reflexivity.
  - intros [E|[]]. discriminate E.
Qed.

(** Two books on disk and no metadata: [mobydick] has no metadata and is
    listed. *)
Lemma unlisted_file_resolution_witness :
  let h := World.catalog_of World.two_books in
  mcpserver.book_catalog_agent h (meta_request "mobydick")
  = Ok [text_message "{}"]
  /\ mcpserver.book_catalog_agent h list_request
     = Ok [text_message
             ("[" ++ World.q "frankenstein" ++ ", " ++ World.q "mobydick" ++ "]")]
  /\ In "mobydick" (sorted (mcpserver.scan_books (mcpserver.proc h))).
Proof.
  intros h.
  destruct (unlisted_file_resolution h [] "mobydick")
    as [Hmeta (ks & Hlist & Hempty & _)]; try reflexivity.
  - left. reflexivity.
  - destruct (Hempty eq_refl) as [-> Hin].
    split; [exact Hmeta|]. split; [exact Hlist | exact Hin].
Defined.

(** ** Specialist client (main.py) and the archivist tool (smolagents_server.py) *)

Section ClientFacts.
Context `{PyLib}.

(** [call_agent] has no handler: what the transport raises, it raises. *)
Lemma call_agent_propagates (net : transport) (url agent text : string) (err : exn) :
  net url agent [text_message text] = Raise err ->
  main.call_agent net url agent text = Raise err.
Proof. intros E. unfold main.call_agent. rewrite E. reflexivity. Qed.

(** A completed run is always rendered as text by [call_agent]: the first
    part, the error reported by the server behind [[ERROR]], or the
    sentinel. *)
Lemma call_agent_completed (net : transport) (url agent text : string) (run : Run) :
  net url agent [text_message text] = Ok run ->
  main.call_agent net url agent text
  = Ok (match first_content run, error run with
        | Some c, _ => c
        | None, Some e => "[ERROR] " ++ e
        | None, None => "[EMPTY RESPONSE]"
        end).
Proof.
  intros E. unfold main.call_agent. rewrite E. simpl.
  destruct (first_content run); [reflexivity|].
  destruct (error run); reflexivity.
Qed.

(** The archivist tool of the router never raises: a transport failure
    becomes a text behind a fixed prefix, an empty output the sentinel. *)
Lemma archivist_tool_total (e : smolagents_server.env) (input : string) :
  smolagents_server.archivist_agent e input
  = Ok (match smolagents_server.net e "http://127.0.0.1:8001" "archivist_agent"
                [text_message input] with
        | Raise err => "Error communicating with Archivist agent: " ++ exn_str err
        | Ok run => match first_content run with
                    | Some c => c
                    | None => "Archivist returned no content."
                    end
        end).
Proof.
  unfold smolagents_server.archivist_agent, catch.
  destruct (smolagents_server.net e _ _ _) as [run|err]; simpl.
  - destruct (first_content run); reflexivity.
  - reflexivity.
Qed.

End ClientFacts.

(** C2, on the specialist client of main.py. With the archivist endpoint
    refusing the connection, [call_agent] raises the transport's exception
    past its boundary instead of returning a text behind an error marker. *)
Theorem call_agent_raises_when_unreachable :
  main.call_agent World.unreachable
    "http://127.0.0.1:8001" "archivist_agent" "Who is Captain Ahab?"
  = Raise (Exn ConnectError "All connection attempts failed").
Proof. reflexivity. Qed.

(** ** Query router (smolagents_server.py) *)

Section RouterFacts.
Context `{PyLib}.

Lemma router_scan_is_catalog_scan (p : process) :
  smolagents_server._scan_books p = mcpserver.scan_books p.
Proof. reflexivity. Qed.

(** With discovery through the catalog service off, the four tools are
    defined: the two local functions, the archivist and the historian. *)
Lemma all_tools_off (e : smolagents_server.env) :
  smolagents_server.USE_MCP (smolagents_server.proc e) = false ->
  smolagents_server.all_tools e
  = Ok {| smolagents_server.tool_list_available_books :=
            smolagents_server.list_available_books_local e;
          smolagents_server.tool_get_book_metadata :=
            smolagents_server.get_book_metadata_local e;
          smolagents_server.tool_archivist_agent :=
            smolagents_server.archivist_agent e;
          smolagents_server.tool_historian_agent_tool :=
            smolagents_server.historian_agent_tool e |}.
Proof. intros E. unfold smolagents_server.all_tools. now rewrite E. Qed.

(** With it on, the definition of [get_book_metadata] fails. *)
Lemma all_tools_on (e : smolagents_server.env) :
  smolagents_server.USE_MCP (smolagents_server.proc e) = true ->
  exists msg,
    smolagents_server.all_tools e = Raise (Exn DocstringParsingException msg).
Proof.
  intros E. unfold smolagents_server.all_tools. rewrite E.
  eexists. reflexivity.
Qed.

(** Without the catalog service the discovery tool is the directory scan. *)
Lemma list_available_books_off (e : smolagents_server.env) :
  smolagents_server.USE_MCP (smolagents_server.proc e) = false ->
  smolagents_server.list_available_books e
  = Ok (PList (map PStr (smolagents_server._scan_books (smolagents_server.proc e)))).
Proof.
  intros E. unfold smolagents_server.list_available_books.
  now rewrite (all_tools_off e E).
Qed.

Lemma all_str_strings (ks : list string) : all_str (map PStr ks) = Some ks.
Proof. induction ks as [|k ks IH]; simpl; [reflexivity | now rewrite IH]. Qed.

Lemma join_sorted_strings (sep : string) (ks : list string) :
  join_sorted sep (PList (map PStr ks)) = Ok (join sep (sorted ks)).
Proof. unfold join_sorted. now rewrite all_str_strings. Qed.

(** C3, as amended. With discovery through the catalog service off and the
    service down, [list_available_books] returns the scan of the content
    directory; this is the key set of the Catalog Store over the same
    files when the store's metadata mapping is empty. *)
Theorem discovery_fallback_is_scan (e : smolagents_server.env) (h : mcpserver.host) :
  smolagents_server.USE_MCP (smolagents_server.proc e) = false ->
  catalog_down e ->
  base_dir (mcpserver.proc h) = base_dir (smolagents_server.proc e) ->
  fs (mcpserver.proc h) = fs (smolagents_server.proc e) ->
  smolagents_server.list_available_books e
  = Ok (PList (map PStr (smolagents_server._scan_books (smolagents_server.proc e))))
  /\ (mcpserver.load_metadata h = Ok (PDict []) ->
      exists ks,
        mcpserver.listed_keys (mcpserver.proc h) (PDict []) = Ok ks
        /\ forall k,
             In k (smolagents_server._scan_books (smolagents_server.proc e))
             <-> In k ks).
Proof.
  intros Hoff Hdown Hbase Hfs. split; [now apply list_available_books_off|].
  intros _. exists (sorted (mcpserver.scan_books (mcpserver.proc h))).
  split; [reflexivity|]. intros k. rewrite sorted_In.
  unfold smolagents_server._scan_books, mcpserver.scan_books,
    smolagents_server.DATA_DIR, mcpserver.DATA_DIR.
  now rewrite Hbase, Hfs.
Qed.

(** With discovery off, a prompt that is not on the fast path is handed to
    the decision function with the four tools. *)
Lemma delegated_path (e : smolagents_server.env) (input : list Message)
    (prompt : string) :
  smolagents_server.USE_MCP (smolagents_server.proc e) = false ->
  carries input prompt ->
  smolagents_server.fast_path (lower prompt) = false ->
  exists tools,
    smolagents_server.all_tools e = Ok tools
    /\ smolagents_server.literary_critic_agent e input
       = (response <- smolagents_server.reasoner e tools prompt ;;
          Ok [text_message response]).
Proof.
  intros Hoff (more_parts & more_messages & ->) Hfast.
  eexists. split; [exact (all_tools_off e Hoff)|].
  unfold smolagents_server.literary_critic_agent.
  rewrite (all_tools_off e Hoff). simpl. now rewrite Hfast.
Qed.

End RouterFacts.

(** C3, as stated, fails: discovery through the catalog service is off,
    the service is down, and the tool answers with the file on disk where
    the Catalog Store answers with the key of its metadata. *)
Lemma fallback_ignores_local_metadata :
  let e := World.router_of World.metadata_elsewhere World.unreachable in
  let h := World.catalog_of World.metadata_elsewhere in
  let md := [("mobydick", PDict [("title", PStr "Moby Dick")])] in
  catalog_down e
  /\ smolagents_server.list_available_books e = Ok (PList [PStr "frankenstein"])
  /\ mcpserver.load_metadata h = Ok (PDict md)
  /\ mcpserver.listed_keys (mcpserver.proc h) (PDict md) = Ok ["mobydick"]
  /\ ~ In "mobydick" ["frankenstein"].
Proof.
  cbv zeta. repeat split; try reflexivity.
  - intros agent input. eexists. reflexivity.
  - intros [E|[]]. discriminate E.
Qed.

(** Two books on disk, no metadata, the service down: both sides list the
    two files. *)
Lemma discovery_fallback_is_scan_witness :
  let e := World.router_of World.two_books World.unreachable in
  let h := World.catalog_of World.two_books in
  smolagents_server.USE_MCP (smolagents_server.proc e) = false
  /\ catalog_down e
  /\ smolagents_server.list_available_books e
     = Ok (PList [PStr "mobydick"; PStr "frankenstein"])
  /\ exists ks,
       mcpserver.listed_keys (mcpserver.proc h) (PDict []) = Ok ks
       /\ forall k,
            In k (smolagents_server._scan_books (smolagents_server.proc e))
            <-> In k ks.
Proof.
  intros e h.
  assert (Hdown : catalog_down e).
  { intros agent input. eexists. reflexivity. }
  destruct (discovery_fallback_is_scan e h eq_refl Hdown eq_refl eq_refl)
    as [Hl Hk].
  split; [reflexivity|]. split; [exact Hdown|]. split; [exact Hl|].
  exact (Hk eq_refl).
Defined.

(** C6, with discovery through the catalog service switched on. The
    question of the design document, against two books, is not answered
    by the listing: the agent fails while it defines its tools, before it
    reads the prompt, because [get_book_metadata] of that branch has no
    description of its argument. *)
Theorem fast_path_fails_with_discovery_on :
  exists msg,
    smolagents_server.literary_critic_agent
      (World.router_of (World.with_env World.two_books "USE_MCP_DISCOVERY" "1")
         World.unreachable)
      [text_message "What books are available in the library?"]
    = Raise (Exn DocstringParsingException msg).
Proof. eexists. reflexivity. Qed.

(** ** Archivist specialist (crew_agent_server.py) *)

Section ArchivistFacts.
Context `{PyLib}.

(** A text that is not JSON is answered by the description of the expected
    shape. *)
Lemma invalid_json_answer (e : crew_agent_server.env) (input : list Message)
    (text msg : string) :
  carries input text ->
  json_loads text = DecodeError msg ->
  crew_agent_server.archivist_agent e input
  = Ok [text_message (crew_agent_server.INVALID_INPUT ++ msg)].
Proof.
  intros (more_parts & more_messages & ->) E.
  unfold crew_agent_server.archivist_agent, crew_agent_server.parse_request, loads.
  simpl. rewrite E. reflexivity.
Qed.

(** A JSON object without one of the two fields, likewise: the text names
    the missing field. *)
Lemma missing_field_answer (e : crew_agent_server.env) (input : list Message)
    (text : string) (d : list (string * pyval)) :
  carries input text ->
  json_loads text = Decoded (PDict d) ->
  dict_lookup "book_title" d = None \/ dict_lookup "query" d = None ->
  exists field,
    (field = "book_title" \/ field = "query")
    /\ crew_agent_server.archivist_agent e input
       = Ok [text_message (crew_agent_server.INVALID_INPUT ++ "'" ++ field ++ "'")].
Proof.
  intros (more_parts & more_messages & ->) E Hmiss.
  unfold crew_agent_server.archivist_agent, crew_agent_server.parse_request, loads.
  simpl. rewrite E. simpl.
  destruct (dict_lookup "book_title" d) as [t|] eqn:Et; simpl.
  - destruct Hmiss as [Hm|Hm]; [discriminate|]. rewrite Hm. simpl.
    exists "query". split; [now right | reflexivity].
  - exists "book_title". split; [now left | reflexivity].
Qed.

(** A JSON text that is not an object escapes the handler: subscripting
    the decoded value raises [TypeError], which the [except] clause does
    not list. *)
Lemma non_object_raises (e : crew_agent_server.env) (input : list Message)
    (text : string) (v : pyval) :
  carries input text ->
  json_loads text = Decoded v ->
  is_dict v = false ->
  exists msg,
    crew_agent_server.archivist_agent e input = Raise (Exn TypeError msg).
Proof.
  intros (more_parts & more_messages & ->) E Hv.
  unfold crew_agent_server.archivist_agent, crew_agent_server.parse_request, loads.
  simpl. rewrite E.
  destruct v; simpl in *; try discriminate; eexists; reflexivity.
Qed.

(** A regular file or directory [k.txt] of the content directory is one of
    the keys the archivist offers. *)
Lemma available_keys_finds (p : process) (k : string) :
  isdir (fs p) (crew_agent_server.data_dir p) = true ->
  In (k ++ ".txt") (listdir (fs p) (crew_agent_server.data_dir p)) ->
  rfind "/"%char k = None -> all_dots k = false ->
  In k (crew_agent_server.available_keys p).
Proof.
  intros Hdir Hin Hsep Hdots. unfold crew_agent_server.available_keys.
  rewrite Hdir. apply in_map_iff. exists (k ++ ".txt"). split.
  - now apply splitext_txt.
  - apply filter_In. split; [exact Hin | apply endswith_app].
Qed.

(** C7. A request that decodes to an object with a string [book_title] and
    a [query], whose content file does not exist, is answered by one text
    message that names the title and lists the keys found by scanning the
    content directory: the stems of its entries that end in [.txt], in
    the order of the directory, and none when there is no directory. The
    key of every entry [k.txt] is in the list. *)
Theorem missing_book_answer (e : crew_agent_server.env) (input : list Message)
    (text title : string) (d : list (string * pyval)) (query : pyval) :
  carries input text ->
  json_loads text = Decoded (PDict d) ->
  dict_lookup "book_title" d = Some (PStr title) ->
  dict_lookup "query" d = Some query ->
  isfile (fs (crew_agent_server.proc e))
         (path_join (crew_agent_server.data_dir (crew_agent_server.proc e))
                    (title ++ ".txt")) = false ->
  let directory := path_join (base_dir (crew_agent_server.proc e)) "data" in
  let entries :=
    if isdir (fs (crew_agent_server.proc e)) directory
    then filter (fun f => endswith f ".txt")
                (listdir (fs (crew_agent_server.proc e)) directory)
    else [] in
  let found := map (fun f => fst (splitext f)) entries in
  crew_agent_server.archivist_agent e input
  = Ok [text_message
          ("Requested book not found: '" ++ title
             ++ "'. Ensure the 'book_title' matches one of: "
             ++ join ", " found)]
  /\ forall k,
       isdir (fs (crew_agent_server.proc e)) directory = true ->
       In (k ++ ".txt") (listdir (fs (crew_agent_server.proc e)) directory) ->
       rfind "/"%char k = None -> all_dots k = false ->
       In k found.
Proof.
  intros (more_parts & more_messages & ->) E Ht Hq Hfile directory entries found.
  split.
  - assert (Hparse :
      crew_agent_server.parse_request (crew_agent_server.proc e)
        ({| parts := {| content := text |} :: more_parts |} :: more_messages)
      = Ok (PStr title, query,
            path_join (crew_agent_server.data_dir (crew_agent_server.proc e))
                      (title ++ ".txt"))).
    { unfold crew_agent_server.parse_request, loads.
      simpl. rewrite E. simpl. rewrite Ht. simpl. rewrite Hq. reflexivity. }
    unfold crew_agent_server.archivist_agent. rewrite Hparse, Hfile.
    cbn [negb str_add bind].
    unfold crew_agent_server.available_keys, crew_agent_server.data_dir.
    subst found entries directory.
    destruct (isdir _ _); reflexivity.
  - intros k Hdir Hin Hsep Hdots. subst found entries. rewrite Hdir.
    apply in_map_iff. exists (k ++ ".txt"). split.
    + now apply splitext_txt.
    + apply filter_In. split; [exact Hin | apply endswith_app].
Qed.

End ArchivistFacts.

(** C4, on a JSON text that is not an object. The request [[]] is valid
    JSON and has neither field; the archivist does not answer with the
    description of the expected shape: it fails with [TypeError]. *)
Theorem archivist_fails_on_json_array (e : crew_agent_server.env) :
  crew_agent_server.archivist_agent e [text_message "[]"]
  = Raise (Exn TypeError "list indices must be integers or slices, not str").
Proof. reflexivity. Qed.

(** The malformed payload of the design document. *)
Example archivist_not_json :
  exists msg,
    crew_agent_server.archivist_agent (World.archivist_of World.two_books)
      [text_message "not json"]
    = Ok [text_message
            ("Invalid input format. Please provide a JSON string with "
               ++ "'book_title' and 'query'. Error: " ++ msg)].
Proof. eexists. reflexivity. Qed.

(** The request for a book that is not there, against two books. *)
Lemma missing_book_answer_witness :
  let e := World.archivist_of World.two_books in
  let text := "{" ++ World.q "book_title" ++ ": " ++ World.q "nonexistent"
                  ++ ", " ++ World.q "query" ++ ": " ++ World.q "q" ++ "}" in
  json_loads text
  = Decoded (PDict [("book_title", PStr "nonexistent"); ("query", PStr "q")])
  /\ crew_agent_server.archivist_agent e [text_message text]
     = Ok [text_message
             ("Requested book not found: 'nonexistent'. "
                ++ "Ensure the 'book_title' matches one of: mobydick, frankenstein")].
Proof.
  intros e text. split; [reflexivity|].
  apply (missing_book_answer e [text_message text] text "nonexistent"
           [("book_title", PStr "nonexistent"); ("query", PStr "q")] (PStr "q")).
  - exists [], []. reflexivity.
  - reflexivity.
  - reflexivity.
  - reflexivity.
  - reflexivity.
Defined.

(** ** Interactive client (main.py) *)

Section InteractiveFacts.
Context `{PyLib}.
Variable net : transport.

Lemma use_prefix_shape (s : string) :
  startswith s "/use " = true -> exists r, s = "/use " ++ r.
Proof.
  unfold startswith.
  destruct s as [|c1 [|c2 [|c3 [|c4 [|c5 r]]]]]; cbn [String.prefix];
    repeat match goal with
           | |- context [ascii_dec ?a ?b] => destruct (ascii_dec a b); subst
           end;
    try discriminate.
  intros _. exists r. reflexivity.
Qed.

(** A [/use] line is none of the reserved words tested before it. *)
Lemma use_not_reserved (r : string) :
  main.mem ("/use " ++ r) ["/exit"; "exit"; "quit"; ":q"] = false
  /\ main.mem ("/use " ++ r) ["/help"; "help"] = false
  /\ main.mem ("/use " ++ r) ["/agents"; "agents"] = false.
Proof. repeat split. Qed.

(** C9. A line whose stripped, lower-cased text begins with [/use ] is
    handled by the selection branch: the loop goes on, the line is
    consumed, and either the name is unknown, a message says so and the
    active selection is the one before the command, or the name is
    configured and becomes the active selection. *)
Theorem use_command (p : process) (c : main.console) (line : string)
    (rest : list string) :
  main.stdin c = line :: rest ->
  startswith (lower (strip line)) "/use " = true ->
  let name := lower (strip (snd (partition " "%char (strip line)))) in
  exists c',
    main.loop_body net p c = Ok (main.Continue, c')
    /\ main.stdin c' = rest
    /\ match main.lookup name main.AGENTS with
       | None =>
           main.current c' = main.current c
           /\ main.stdout c'
              = List.app (main.stdout c)
                  [nl ++ "> ";
                   "Unknown agent '" ++ name
                     ++ "'. Try one of: critic, archivist, catalog"]
       | Some (url, agent_name) =>
           main.current c' = name
           /\ main.stdout c'
              = List.app (main.stdout c)
                  [nl ++ "> ";
                   "Switched to '" ++ name ++ "' -> " ++ agent_name
                     ++ " @ " ++ url]
       end.
Proof.
  intros Hin Huse name.
  destruct (use_prefix_shape _ Huse) as [r Hr].
  destruct (use_not_reserved r) as (Hexit & Hhelp & Hagents).
  unfold main.loop_body, main.input_.
  destruct c as [cur sin sout]. simpl in Hin. subst sin.
  cbn [main.print main.stdin main.stdout main.current].
  fold name.
  destruct (strip line) as [|a u] eqn:Eu; [discriminate Hr|].
  rewrite Hr, Hexit, Hhelp, Hagents.
  rewrite <- Hr, Huse.
  subst name.
  destruct (main.lookup _ main.AGENTS) as [[url agent_name]|].
  - eexists. split; [reflexivity|]. cbn. rewrite <- app_assoc. auto.
  - eexists. split; [reflexivity|]. cbn. rewrite <- app_assoc. auto.
Qed.

End InteractiveFacts.

(** An unknown name leaves the selection on [critic]; a known one moves
    it. *)
Lemma use_command_witness :
  let c := {| main.current := "critic";
              main.stdin := ["/use nobody"];
              main.stdout := [] |} in
  main.stdin c = ["/use nobody"]
  /\ startswith (lower (strip "/use nobody")) "/use " = true
  /\ exists c',
       main.loop_body World.unreachable World.two_books c = Ok (main.Continue, c')
       /\ main.stdin c' = []
       /\ main.current c' = "critic"
       /\ main.stdout c'
          = [nl ++ "> ";
             "Unknown agent 'nobody'. Try one of: critic, archivist, catalog"].
Proof.
  intros c. split; [reflexivity|]. split; [reflexivity|].
  destruct (use_command World.unreachable World.two_books c "/use nobody" []
              eq_refl eq_refl) as (c' & Hstep & Hrest & Hsel).
  exists c'. split; [exact Hstep|]. split; [exact Hrest|]. exact Hsel.
Defined.

Example use_known_agent :
  main.loop_body World.unreachable World.two_books
    {| main.current := "critic"; main.stdin := ["  /USE Archivist "];
       main.stdout := [] |}
  = Ok (main.Continue,
        {| main.current := "archivist"; main.stdin := [];
           main.stdout :=
             [nl ++ "> ";
              "Switched to 'archivist' -> archivist_agent @ http://127.0.0.1:8001"] |}).
Proof. reflexivity. Qed.

(** * Further properties of the code *)

(** ** More on strings and paths *)

Section MorePathFacts.

Lemma substring_split (n : nat) (s : string) :
  n <= String.length s ->
  substring 0 n s ++ substring n (String.length s - n) s = s.
Proof.
  revert n. induction s as [|c s IH]; intros [|n] Hn; simpl in *;
    try reflexivity; try lia.
  - now rewrite substring_all.
  - rewrite IH by lia. reflexivity.
Qed.

(** A string that ends with [t] is some string followed by [t]. *)
Lemma endswith_split (s t : string) :
  endswith s t = true -> exists a, s = a ++ t.
Proof.
  unfold endswith. intros E. apply andb_prop in E. destruct E as [Hlen Heq].
  apply Nat.leb_le in Hlen. apply String.eqb_eq in Heq.
  exists (substring 0 (String.length s - String.length t) s).
  pose proof (substring_split (String.length s - String.length t) s) as E.
  replace (String.length s - (String.length s - String.length t))
    with (String.length t) in E by lia.
  rewrite Heq in E. symmetry. apply E. lia.
Qed.

(** The stem of an entry that ends in [.txt] is the entry without these
    four characters, or the whole entry when nothing but dots comes before
    them in its last component. *)
Lemma splitext_txt_cases (a : string) :
  fst (splitext (a ++ ".txt")) = a \/ fst (splitext (a ++ ".txt")) = a ++ ".txt".
Proof.
  unfold splitext. rewrite (rfind_app "."%char).
  change (rfind "."%char ".txt") with (Some 0). cbv beta iota.
  rewrite Nat.add_0_r.
  destruct (_ && _); simpl; [left; apply substring_app_left | now right].
Qed.

(** Sorting a list that is in ascending order gives it back. *)
Lemma sorted_fixed (l : list string) : ascending l -> sorted l = l.
Proof.
  unfold ascending. induction 1 as [|x l Hl IH Hhd]; simpl; [reflexivity|].
  rewrite IH. destruct Hhd as [|y r Hxy]; simpl; [reflexivity|].
  now rewrite Hxy.
Qed.

End MorePathFacts.

(** ** More on the catalog discovery service (mcpserver.py) *)

Section MoreCatalogFacts.
Context `{PyLib}.

(** X1. The directory scan reports nothing but regular files whose name
    ends in [.txt]: every key it returns is the stem of such an entry of
    the content directory, which exists. The entry is the key followed by
    [.txt], or the key itself when its stem is made of dots only. *)
Theorem scan_books_sound (p : process) (k : string) :
  In k (mcpserver.scan_books p) ->
  isdir (fs p) (mcpserver.DATA_DIR p) = true
  /\ exists f,
       In f (listdir (fs p) (mcpserver.DATA_DIR p))
       /\ isfile (fs p) (path_join (mcpserver.DATA_DIR p) f) = true
       /\ endswith f ".txt" = true
       /\ (f = k ++ ".txt" \/ f = k).
Proof.
  unfold mcpserver.scan_books.
  destruct (isdir _ _); simpl; [|intros []].
  intros Hin. split; [reflexivity|].
  apply in_map_iff in Hin. destruct Hin as (f & Hk & Hf).
  apply filter_In in Hf. destruct Hf as (Hf & Hc).
  apply andb_prop in Hc. destruct Hc as (Hext & Hfile).
  exists f. repeat split; try assumption.
  destruct (endswith_split _ _ Hext) as [a ->].
  destruct (splitext_txt_cases a) as [E|E]; rewrite E in Hk; subst k; auto.
Qed.

(** X2. The answer to [__LIST__] is a JSON array of keys in ascending
    order, with the same members as the metadata mapping's keys when the
    mapping is not empty, and as the directory scan when it is. *)
Theorem listing_is_sorted (h : mcpserver.host) (md : list (string * pyval)) :
  mcpserver.load_metadata h = Ok (PDict md) ->
  exists ks,
    mcpserver.book_catalog_agent h list_request
    = Ok [text_message (json_dumps (PList (map PStr ks)))]
    /\ ascending ks
    /\ Permutation (match md with
                    | [] => mcpserver.scan_books (mcpserver.proc h)
                    | _ => dict_keys md
                    end) ks.
Proof.
  intros Hm.
  exists (sorted (match md with
                  | [] => mcpserver.scan_books (mcpserver.proc h)
                  | _ => dict_keys md
                  end)).
  split; [|split; [apply sorted_ascending | apply sorted_perm]].
  apply (list_request_answer h (PDict md)); [exact Hm|].
  destruct md; reflexivity.
Qed.

Lemma dict_lookup_key (k : string) (md : list (string * pyval)) (m : pyval) :
  dict_lookup k md = Some m -> In k (dict_keys md).
Proof.
  induction md as [|[k' v] md IH]; simpl; [discriminate|].
  destruct (String.eqb k' k) eqn:E.
  - apply String.eqb_eq in E. now left.
  - intros Hm. right. now apply IH.
Qed.

(** X3. A key of the metadata mapping is served whether or not the content
    directory holds a file for it: [__META__] answers with its stored
    entry and [__LIST__] names it. *)
Theorem metadata_entry_served (h : mcpserver.host)
    (md : list (string * pyval)) (k : string) (m : pyval) :
  mcpserver.load_metadata h = Ok (PDict md) ->
  dict_lookup k md = Some m ->
  mcpserver.book_catalog_agent h (meta_request k)
  = Ok [text_message (json_dumps m)]
  /\ exists ks,
       mcpserver.book_catalog_agent h list_request
       = Ok [text_message (json_dumps (PList (map PStr ks)))]
       /\ In k ks.
Proof.
  intros Hm Hk. split.
  - rewrite (meta_request_answer h md k Hm), Hk. reflexivity.
  - exists (sorted (dict_keys md)). split.
    + apply (list_request_answer h (PDict md)); [exact Hm|].
      destruct md; [discriminate Hk | reflexivity].
    + apply sorted_In. exact (dict_lookup_key k md m Hk).
Qed.

(** X4. A metadata document that decodes to anything but an object breaks
    both commands: [__LIST__] and every [__META__] request raise
    [AttributeError], which nothing in the agent handles. *)
Theorem non_object_metadata_raises (h : mcpserver.host) (v : pyval) :
  mcpserver.load_metadata h = Ok v ->
  is_dict v = false ->
  (exists msg,
     mcpserver.book_catalog_agent h list_request
     = Raise (Exn AttributeError msg))
  /\ (forall k, exists msg,
        mcpserver.book_catalog_agent h (meta_request k)
        = Raise (Exn AttributeError msg)).
Proof.
  intros Hm Hv. split.
  - unfold mcpserver.book_catalog_agent. rewrite Hm. simpl.
    destruct v; try discriminate Hv; eexists; reflexivity.
  - intros k. unfold mcpserver.book_catalog_agent. rewrite Hm.
    unfold meta_request. cbn [mcpserver.prompt_of text_message parts content bind].
    rewrite meta_request_prefix, meta_request_key.
    replace (String.eqb ("__META__:" ++ k) "__LIST__") with false
      by (simpl; destruct k; reflexivity).
    destruct v; try discriminate Hv; eexists; reflexivity.
Qed.

(** X5. When [BOOK_METADATA_URL] is set to a non-empty address whose body
    is JSON, the decoded body is the metadata in use, whatever the local
    document holds. *)
Theorem remote_metadata_wins (h : mcpserver.host) (url body : string) (v : pyval) :
  getenv (mcpserver.proc h) "BOOK_METADATA_URL" = Some url ->
  url <> EmptyString ->
  mcpserver.http_get h url = Ok body ->
  json_loads body = Decoded v ->
  mcpserver.load_metadata h = Ok v.
Proof.
  intros Hurl Hne Hget Hjson. unfold mcpserver.load_metadata. rewrite Hurl.
  destruct url as [|c u]; [contradiction|].
  rewrite Hget. unfold loads. simpl. rewrite Hjson. reflexivity.
Qed.

(** X6. A remote body that is not JSON is treated like an unreachable
    source: the metadata in use is the local resolution. *)
Theorem remote_parse_failure_falls_back (h : mcpserver.host)
    (url body msg : string) :
  getenv (mcpserver.proc h) "BOOK_METADATA_URL" = Some url ->
  mcpserver.http_get h url = Ok body ->
  json_loads body = DecodeError msg ->
  mcpserver.load_metadata h = mcpserver.load_local (mcpserver.proc h).
Proof.
  intros Hurl Hget Hjson. unfold mcpserver.load_metadata. rewrite Hurl.
  destruct url as [|c u]; [reflexivity|].
  rewrite Hget. unfold loads. simpl. rewrite Hjson. reflexivity.
Qed.

(** X7. With no remote address, or an empty one, a local document that
    cannot be read or is not JSON leaves the metadata mapping empty:
    [__LIST__] is the sorted directory scan and every [__META__] request
    gets the empty object. *)
Theorem unreadable_local_metadata (h : mcpserver.host) :
  (getenv (mcpserver.proc h) "BOOK_METADATA_URL" = None
   \/ getenv (mcpserver.proc h) "BOOK_METADATA_URL" = Some EmptyString) ->
  (raises (read_text (fs (mcpserver.proc h))
             (mcpserver.LOCAL_META_PATH (mcpserver.proc h)))
   \/ exists text msg,
        read_text (fs (mcpserver.proc h))
          (mcpserver.LOCAL_META_PATH (mcpserver.proc h)) = Ok text
        /\ json_loads text = DecodeError msg) ->
  mcpserver.load_metadata h = Ok (PDict [])
  /\ mcpserver.book_catalog_agent h list_request
     = Ok [text_message
             (json_dumps
                (PList (map PStr (sorted (mcpserver.scan_books (mcpserver.proc h))))))]
  /\ forall k,
       mcpserver.book_catalog_agent h (meta_request k)
       = Ok [text_message (json_dumps (PDict []))].
Proof.
  intros Hurl Hbad.
  assert (Hm : mcpserver.load_metadata h = Ok (PDict [])).
  { unfold mcpserver.load_metadata.
    destruct Hurl as [-> | ->]; unfold mcpserver.load_local;
      (destruct Hbad as [[e ->] | (text & msg & -> & Hjson)];
       [reflexivity | unfold loads; simpl; rewrite Hjson; reflexivity]). }
  split; [exact Hm|]. split.
  - exact (list_request_answer h (PDict []) _ Hm eq_refl).
  - intros k. exact (meta_request_answer h [] k Hm).
Qed.

End MoreCatalogFacts.

(** A directory, a file of another kind and a book: the scan reports the
    book, from a regular file of the directory. *)
Lemma scan_books_sound_witness :
  In "mobydick" (mcpserver.scan_books World.mixed_entries)
  /\ exists f,
       In f (listdir (fs World.mixed_entries)
               (mcpserver.DATA_DIR World.mixed_entries))
       /\ isfile (fs World.mixed_entries)
            (path_join (mcpserver.DATA_DIR World.mixed_entries) f) = true
       /\ endswith f ".txt" = true
       /\ (f = "mobydick" ++ ".txt" \/ f = "mobydick").
Proof.
  assert (Hin : In "mobydick" (mcpserver.scan_books World.mixed_entries)).
  { left. reflexivity. }
  split; [exact Hin|].
  exact (proj2 (scan_books_sound World.mixed_entries "mobydick" Hin)).
Defined.

Lemma listing_is_sorted_witness :
  let h := World.catalog_of World.metadata_elsewhere in
  let md := [("mobydick", PDict [("title", PStr "Moby Dick")])] in
  mcpserver.load_metadata h = Ok (PDict md)
  /\ exists ks,
       mcpserver.book_catalog_agent h list_request
       = Ok [text_message (json_dumps (PList (map PStr ks)))]
       /\ ascending ks
       /\ Permutation ["mobydick"] ks.
Proof.
  intros h md. split; [reflexivity|].
  exact (listing_is_sorted h md eq_refl).
Defined.

(** [mobydick] has metadata and no file: it is served all the same. *)
Lemma metadata_entry_served_witness :
  let h := World.catalog_of World.metadata_elsewhere in
  let m := PDict [("title", PStr "Moby Dick")] in
  mcpserver.load_metadata h = Ok (PDict [("mobydick", m)])
  /\ isfile (fs World.metadata_elsewhere)
       (path_join (mcpserver.DATA_DIR World.metadata_elsewhere) "mobydick.txt")
     = false
  /\ mcpserver.book_catalog_agent h (meta_request "mobydick")
     = Ok [text_message (json_dumps m)]
  /\ exists ks,
       mcpserver.book_catalog_agent h list_request
       = Ok [text_message (json_dumps (PList (map PStr ks)))]
       /\ In "mobydick" ks.
Proof.
  intros h m. split; [reflexivity|]. split; [reflexivity|].
  exact (metadata_entry_served h [("mobydick", m)] "mobydick" m eq_refl eq_refl).
Defined.

(** A metadata document that is the JSON array [[]]. *)
Lemma non_object_metadata_raises_witness :
  let h := World.catalog_of World.metadata_is_array in
  mcpserver.load_metadata h = Ok (PList [])
  /\ (exists msg,
        mcpserver.book_catalog_agent h list_request
        = Raise (Exn AttributeError msg))
  /\ (forall k, exists msg,
        mcpserver.book_catalog_agent h (meta_request k)
        = Raise (Exn AttributeError msg)).
Proof.
  intros h. split; [reflexivity|].
  exact (non_object_metadata_raises h (PList []) eq_refl eq_refl).
Defined.

(** A remote source that serves one entry, beside a local document that
    holds another. *)
Lemma remote_metadata_wins_witness :
  let body := "{" ++ World.q "dracula" ++ ": {}}" in
  let h := World.remote_source World.metadata_elsewhere body in
  mcpserver.load_local (mcpserver.proc h)
  = Ok (PDict [("mobydick", PDict [("title", PStr "Moby Dick")])])
  /\ mcpserver.load_metadata h = Ok (PDict [("dracula", PDict [])]).
Proof.
  intros body h. split; [reflexivity|].
  apply (remote_metadata_wins h "http://metadata.example/books.json" body);
    [reflexivity | discriminate | reflexivity | reflexivity].
Defined.

(** A remote source that serves a page of HTML. *)
Lemma remote_parse_failure_falls_back_witness :
  let h := World.remote_source World.metadata_elsewhere "<html></html>" in
  (exists msg, json_loads "<html></html>" = DecodeError msg)
  /\ mcpserver.load_metadata h = mcpserver.load_local (mcpserver.proc h).
Proof.
  intros h. split; [eexists; reflexivity|].
  eapply (remote_parse_failure_falls_back h
            "http://metadata.example/books.json" "<html></html>");
    reflexivity.
Defined.

(** Two books and no metadata document at all. *)
Lemma unreadable_local_metadata_witness :
  let h := World.catalog_of World.two_books in
  raises (read_text (fs (mcpserver.proc h))
            (mcpserver.LOCAL_META_PATH (mcpserver.proc h)))
  /\ mcpserver.load_metadata h = Ok (PDict [])
  /\ mcpserver.book_catalog_agent h list_request
     = Ok [text_message
             ("[" ++ World.q "frankenstein" ++ ", " ++ World.q "mobydick" ++ "]")]
  /\ forall k,
       mcpserver.book_catalog_agent h (meta_request k)
       = Ok [text_message "{}"].
Proof.
  intros h.
  assert (Hbad : raises (read_text (fs (mcpserver.proc h))
                           (mcpserver.LOCAL_META_PATH (mcpserver.proc h)))).
  { eexists. reflexivity. }
  split; [exact Hbad|].
  exact (unreadable_local_metadata h (or_introl eq_refl) (or_introl Hbad)).
Defined.

(** ** More on the key normaliser and the specialist client (main.py) *)

Section MoreClientFacts.
Context `{PyLib}.

Lemma alias_target (k v : string) :
  main.lookup k main.ALIASES = Some v -> v = "prideandprejudice".
Proof.
  unfold main.ALIASES. cbn [main.lookup].
  repeat match goal with
         | |- context [String.eqb ?a ?b] => destruct (String.eqb a b)
         end; congruence.
Qed.

Lemma strip_lower_strip (s : string) : strip (lower (strip s)) = lower (strip s).
Proof. now rewrite <- lower_strip, strip_idem. Qed.

(** X8. A normalised key is in canonical form: it has no surrounding
    white space, no capital letter, and it is not itself one of the
    aliases. *)
Theorem normalize_key_canonical (x : string) :
  strip (main.normalize_key x) = main.normalize_key x
  /\ lower (main.normalize_key x) = main.normalize_key x
  /\ main.lookup (main.normalize_key x) main.ALIASES = None.
Proof.
  unfold main.normalize_key.
  destruct (main.lookup (lower (strip x)) main.ALIASES) as [v|] eqn:E.
  - rewrite (alias_target _ _ E). repeat split.
  - rewrite strip_lower_strip, lower_idem. auto.
Qed.

(** X9. The normaliser does not see the case of its input nor the white
    space around it. *)
Theorem normalize_key_insensitive (x : string) :
  main.normalize_key (lower x) = main.normalize_key x
  /\ main.normalize_key (strip x) = main.normalize_key x.
Proof.
  unfold main.normalize_key.
  now rewrite <- lower_strip, lower_idem, strip_idem.
Qed.

(** X10. A completed run never makes [call_agent] fail, and its output
    comes first: the text of the first part of the first message when
    there is one, even if the run also reports an error; otherwise the
    error behind [[ERROR]]; otherwise the sentinel. *)
Theorem call_agent_rendering (net : transport) (url agent text : string)
    (run : Run) :
  net url agent [text_message text] = Ok run ->
  main.call_agent net url agent text
  = Ok (match output run, error run with
        | {| parts := part :: _ |} :: _, _ => content part
        | _, Some e => "[ERROR] " ++ e
        | _, None => "[EMPTY RESPONSE]"
        end).
Proof.
  intros E. unfold main.call_agent, first_content. rewrite E. simpl.
  destruct (output run) as [|[[|part more_parts]] more]; simpl;
    try reflexivity; destruct (error run); reflexivity.
Qed.

End MoreClientFacts.

(** A run that carries both an answer and an error: the answer is
    returned. *)
Lemma call_agent_rendering_witness :
  let run := {| output := [text_message "Ishmael."]; error := Some "late" |} in
  let net : transport := fun _ _ _ => Ok run in
  net "http://127.0.0.1:8001" "archivist_agent" [text_message "Who narrates?"]
  = Ok run
  /\ main.call_agent net "http://127.0.0.1:8001" "archivist_agent" "Who narrates?"
     = Ok "Ishmael.".
Proof.
  intros run net. split; [reflexivity|].
  exact (call_agent_rendering net "http://127.0.0.1:8001" "archivist_agent"
           "Who narrates?" run eq_refl).
Defined.

(** ** More on the interactive client (main.py) *)

Section MoreInteractiveFacts.
Context `{PyLib}.
Variable net : transport.

Lemma print_banner_keeps (cur : string) (c c' : main.console) :
  main.print_banner cur c = Ok c' ->
  main.stdin c' = main.stdin c /\ main.current c' = main.current c.
Proof.
  unfold main.print_banner. destruct (main.agent_entry cur); simpl; [|discriminate].
  intros E. inversion E. split; reflexivity.
Qed.

Lemma request_keeps (url agent text : string) (c c' : main.console) :
  main.request net url agent text c = Ok c' ->
  main.stdin c' = main.stdin c /\ main.current c' = main.current c.
Proof.
  unfold main.request. destruct (main.call_agent _ _ _ _); simpl; [|discriminate].
  intros E. inversion E. split; reflexivity.
Qed.

Ltac step_cases :=
  repeat match goal with
         | E : Ok _ = Ok _ |- _ => inversion E; subst; clear E
         | E : Raise _ = Ok _ |- _ => discriminate E
         | E : (_, _) = (_, _) |- _ => inversion E; subst; clear E
         | E : bind ?m _ = Ok _ |- _ =>
             let F := fresh "F" in destruct m eqn:F; cbn [bind] in E
         | E : context [if ?b then _ else _] |- _ =>
             let F := fresh "F" in destruct b eqn:F
         | E : context [match ?x with _ => _ end] |- _ =>
             let F := fresh "F" in destruct x eqn:F
         end.

Ltac kept :=
  repeat match goal with
         | E : main.request _ _ _ _ _ = Ok _ |- _ =>
             apply request_keeps in E; destruct E as [? ?]
         | E : main.print_banner _ _ = Ok _ |- _ =>
             apply print_banner_keeps in E; destruct E as [? ?]
         end.

(** A turn that goes on has read at least one line, and a turn never moves
    the selection away from the configured agents. *)
Lemma loop_body_step (p : process) (c c' : main.console) (fl : main.flow) :
  main.loop_body net p c = Ok (fl, c') ->
  (fl = main.Continue -> List.length (main.stdin c') < List.length (main.stdin c))
  /\ (configured c -> configured c').
Proof.
  unfold main.loop_body, main.input_, configured.
  destruct c as [cur sin sout]. destruct sin as [|line rest];
    cbn [main.print main.stdin main.stdout main.current main.set_current].
  - intros E. cbn in E. step_cases. split; [discriminate | auto].
  - intros E. step_cases; kept;
      cbn [main.print main.stdin main.stdout main.current main.set_current
           List.length] in *.
    all: try (split; [intros; try discriminate; try lia | auto]).
    all: repeat match goal with
                | E : main.stdin _ = _ |- _ => rewrite E; clear E
                | E : main.current _ = _ |- _ => rewrite E; clear E
                end; cbn [List.length]; try lia; auto.
    intros _ E.
    match goal with
    | F : main.lookup _ main.AGENTS = Some _ |- _ =>
        pose proof (eq_trans (eq_sym F) E) as X; discriminate X
    end.
Qed.

Lemma run_loop_returns (p : process) (fuel : nat) (c : main.console) :
  List.length (main.stdin c) < fuel ->
  exists r, main.run_loop net fuel p c = Some r.
Proof.
  revert c. induction fuel as [|fuel IH]; intros c Hlen; [lia|].
  simpl. destruct (main.loop_body net p c) as [[[|] c']|e] eqn:E; eauto.
  apply IH. destruct (loop_body_step p c c' _ E) as [Hread _].
  specialize (Hread eq_refl). lia.
Qed.

(** X11. The interactive session always comes to an end: whatever is
    typed and whatever the agents answer, the loop stops, with the final
    console or with an exception, after at most one turn per line typed
    and one more for the end of the input. *)
Theorem interactive_terminates (p : process) (typed : list string) :
  exists r, main.interactive net p typed = Some r.
Proof.
  unfold main.interactive.
  destruct (main.print_banner _ _) as [c|e] eqn:E; [|eauto].
  apply run_loop_returns. apply print_banner_keeps in E.
  destruct E as [-> _]. simpl. lia.
Qed.

Lemma run_loop_configured (p : process) (fuel : nat) (c c' : main.console) :
  configured c ->
  main.run_loop net fuel p c = Some (Ok c') ->
  configured c'.
Proof.
  revert c. induction fuel as [|fuel IH]; intros c Hc; simpl; [discriminate|].
  destruct (main.loop_body net p c) as [[[|] c1]|e] eqn:E.
  - apply IH. exact (proj2 (loop_body_step p c c1 _ E) Hc).
  - intros R. inversion R. subst c1.
    exact (proj2 (loop_body_step p c c' _ E) Hc).
  - discriminate.
Qed.

(** X12. The active selection is one of the configured agents throughout
    a session: a session that ends normally ends on a configured agent,
    whatever [/use] commands were typed. *)
Theorem selection_stays_configured (p : process) (typed : list string)
    (c : main.console) :
  main.interactive net p typed = Some (Ok c) -> configured c.
Proof.
  unfold main.interactive.
  destruct (main.print_banner _ _) as [c0|e] eqn:E; [|discriminate].
  apply run_loop_configured. apply print_banner_keeps in E.
  unfold configured. destruct E as [_ ->]. discriminate.
Qed.

Lemma request_answered (url agent text : string) (c : main.console) :
  always_answers net -> exists c', main.request net url agent text c = Ok c'.
Proof.
  intros Hnet. unfold main.request, main.call_agent.
  destruct (Hnet url agent [text_message text]) as [run ->]. cbn [bind].
  destruct (first_content run); [|destruct (error run)]; eexists; reflexivity.
Qed.

Ltac answered Hnet :=
  match goal with
  | |- context [main.request net ?u ?a ?t ?c] =>
      let c1 := fresh "c" in
      destruct (request_answered u a t c Hnet) as [c1 ->]; cbn [bind]
  end.

Lemma startswith_split (s p0 : string) :
  startswith s p0 = true -> exists r, s = p0 ++ r.
Proof.
  unfold startswith. revert s.
  induction p0 as [|a p0 IH]; intros s; [exists s; reflexivity|].
  destruct s as [|b s]; cbn [String.prefix]; [discriminate|].
  destruct (ascii_dec a b) as [->|]; [|discriminate].
  intros E. destruct (IH s E) as [r ->]. exists r. reflexivity.
Qed.

Lemma meta_not_reserved (r : string) :
  main.mem ("/meta " ++ r) ["/exit"; "exit"; "quit"; ":q"] = false
  /\ main.mem ("/meta " ++ r) ["/help"; "help"] = false
  /\ main.mem ("/meta " ++ r) ["/agents"; "agents"] = false
  /\ startswith ("/meta " ++ r) "/use " = false.
Proof. repeat split. Qed.

(** X14. [/meta <key>] looks the normalised key up in the local metadata
    document and prints its entry; an entry that is missing, or empty, is
    reported as not found. The loop goes on and the selection is kept. *)
Theorem meta_command (p : process) (md : list (string * pyval))
    (c : main.console) (line : string) (rest : list string) :
  main.stdin c = line :: rest ->
  startswith (lower (strip line)) "/meta " = true ->
  main.load_metadata p = Ok (PDict md) ->
  let key := main.normalize_key (snd (partition " "%char (strip line))) in
  main.loop_body net p c
  = Ok (main.Continue,
        prompted c
          [nl ++ "> ";
           match dict_lookup key md with
           | Some m =>
               if truthy m then json_dumps_indent2 m
               else "No metadata found for '" ++ key ++ "'."
           | None => "No metadata found for '" ++ key ++ "'."
           end] rest).
Proof.
  intros Hin Hmeta Hdoc key.
  destruct (startswith_split _ _ Hmeta) as [r Hr].
  destruct (meta_not_reserved r) as (Hexit & Hhelp & Hagents & Huse).
  unfold main.loop_body, main.input_, prompted.
  destruct c as [cur sin sout]. simpl in Hin. subst sin.
  cbn [main.print main.stdin main.stdout main.current].
  fold key.
  destruct (strip line) as [|a u] eqn:Eu; [discriminate Hr|].
  rewrite Hr, Hexit, Hhelp, Hagents, Huse.
  rewrite <- Hr, Hmeta, Hdoc. cbn [bind get].
  unfold main.print. cbn [main.current main.stdin main.stdout].
  destruct (dict_lookup key md) as [m|]; [destruct (truthy m)|];
    cbn [negb truthy]; now rewrite <- app_assoc.
Qed.

Lemma plain_question_tests (u : string) :
  plain_question u = true ->
  u <> EmptyString
  /\ main.mem (lower u) ["/exit"; "exit"; "quit"; ":q"] = false
  /\ main.mem (lower u) ["/help"; "help"] = false
  /\ main.mem (lower u) ["/agents"; "agents"] = false
  /\ startswith (lower u) "/use " = false
  /\ startswith (lower u) "/meta " = false
  /\ main.mem (lower u) ["/list"; "list"] = false.
Proof.
  unfold plain_question. intros E.
  repeat (apply andb_prop in E; destruct E as [E ?]).
  repeat match goal with
         | X : negb _ = true |- _ => apply negb_true_iff in X
         end.
  repeat split; try assumption.
  intros ->. discriminate E.
Qed.

(** A request turn: the request line, the call, the response line. *)
Lemma request_turn (url agent text : string) (c : main.console)
    (prompts remaining : list string) :
  (c' <- main.request net url agent text (prompted c prompts remaining) ;;
   Ok (main.Continue, c'))
  = (answer <- main.call_agent net url agent text ;;
     Ok (main.Continue,
         prompted c
           (List.app prompts
              [nl ++ "[Request] " ++ agent ++ " <= " ++ text;
               "[Response] " ++ answer]) remaining)).
Proof.
  unfold main.request, prompted, main.print.
  destruct (main.call_agent _ _ _ _); cbn; [|reflexivity].
  now rewrite <- !app_assoc.
Qed.

Lemma input_prompted (prompt line : string) (c : main.console)
    (prompts remaining : list string) :
  main.input_ prompt (prompted c prompts (line :: remaining))
  = (Ok line, prompted c (List.app prompts [prompt]) remaining).
Proof. unfold main.input_, prompted. cbn. now rewrite <- app_assoc. Qed.

(** A plain question reaches the question flow of the loop. *)
Lemma plain_turn (p : process) (c : main.console) (line : string)
    (rest : list string) :
  main.stdin c = line :: rest ->
  plain_question (strip line) = true ->
  main.loop_body net p c
  = (let c := prompted c [nl ++ "> "] rest in
     let user_input := strip line in
     e <- main.agent_entry (main.current c) ;;
     let (url, agent_name) := e in
     if String.eqb (main.current c) "archivist" then
       match loads user_input with
       | Ok _ =>
           c <- main.request net url agent_name user_input c ;;
           Ok (main.Continue, c)
       | Raise err =>
           match exn_cls err with
           | JSONDecodeError =>
               match main.input_ "Book key (e.g., mobydick, frankenstein): " c with
               | (Raise e, _) => Raise e
               | (Ok answer, c) =>
                   let book_key := main.normalize_key (strip answer) in
                   let payload :=
                     json_dumps (PDict [("book_title", PStr book_key);
                                        ("query", PStr user_input)]) in
                   c <- main.request net url agent_name payload c ;;
                   Ok (main.Continue, c)
               end
           | _ => Raise err
           end
       end
     else
       c <- main.request net url agent_name user_input c ;;
       Ok (main.Continue, c)).
Proof.
  intros Hin Hq.
  destruct (plain_question_tests _ Hq) as (Hne & H1 & H2 & H3 & H4 & H5 & H6).
  unfold main.loop_body, main.input_ at 1, prompted.
  destruct c as [cur sin sout]. simpl in Hin. subst sin.
  cbn [main.print main.stdin main.stdout main.current].
  destruct (strip line) as [|a u] eqn:Eu; [contradiction|].
  rewrite H1, H2, H3, H4, H5, H6. reflexivity.
Qed.

(** X15. A plain question is sent, stripped and otherwise as typed, to the
    active agent, and the request and the response are printed; this holds
    for every agent but the archivist, and for the archivist when the
    line is JSON. What the transport raises ends the turn. *)
Theorem question_is_forwarded (p : process) (c : main.console)
    (line url agent_name : string) (rest : list string) :
  main.stdin c = line :: rest ->
  plain_question (strip line) = true ->
  main.lookup (main.current c) main.AGENTS = Some (url, agent_name) ->
  (main.current c <> "archivist"
   \/ exists v, json_loads (strip line) = Decoded v) ->
  main.loop_body net p c
  = (answer <- main.call_agent net url agent_name (strip line) ;;
     Ok (main.Continue,
         prompted c
           [nl ++ "> ";
            nl ++ "[Request] " ++ agent_name ++ " <= " ++ strip line;
            "[Response] " ++ answer] rest)).
Proof.
  intros Hin Hq Hcur Hplain.
  rewrite (plain_turn p c line rest Hin Hq).
  cbn [prompted main.current]. unfold main.agent_entry. rewrite Hcur.
  cbn [bind].
  pose proof (request_turn url agent_name (strip line) c [nl ++ "> "] rest)
    as Hsend.
  destruct (String.eqb (main.current c) "archivist") eqn:Ea; [|exact Hsend].
  destruct Hplain as [Hne | [v Hv]].
  - apply String.eqb_eq in Ea. contradiction.
  - unfold loads. rewrite Hv. exact Hsend.
Qed.

(** X16. On the archivist, a question that is not JSON is completed by a
    second prompt: the book key typed there is normalised and sent with
    the question as a JSON object of the two fields. *)
Theorem archivist_question_is_wrapped (p : process) (c : main.console)
    (line key msg : string) (rest : list string) :
  main.stdin c = line :: key :: rest ->
  main.current c = "archivist" ->
  plain_question (strip line) = true ->
  json_loads (strip line) = DecodeError msg ->
  let payload :=
    json_dumps (PDict [("book_title", PStr (main.normalize_key (strip key)));
                       ("query", PStr (strip line))]) in
  main.loop_body net p c
  = (answer <- main.call_agent net "http://127.0.0.1:8001" "archivist_agent"
                 payload ;;
     Ok (main.Continue,
         prompted c
           [nl ++ "> ";
            "Book key (e.g., mobydick, frankenstein): ";
            nl ++ "[Request] archivist_agent <= " ++ payload;
            "[Response] " ++ answer] rest)).
Proof.
  intros Hin Hcur Hq Hjson payload.
  rewrite (plain_turn p c line (key :: rest) Hin Hq).
  cbn [prompted main.current]. rewrite Hcur.
  change (main.agent_entry "archivist")
    with (Ok (A := string * string) ("http://127.0.0.1:8001", "archivist_agent")).
  cbn [bind String.eqb Ascii.eqb Bool.eqb].
  unfold loads. rewrite Hjson. cbn [raise exn_cls]. rewrite input_prompted.
  exact (request_turn "http://127.0.0.1:8001" "archivist_agent" payload c
           [nl ++ "> "; "Book key (e.g., mobydick, frankenstein): "] rest).
Qed.

(** X17. The prompt for the book key is not guarded: when the input ends
    there, [EOFError] leaves the loop, while the same end of input at the
    main prompt ends the session quietly. *)
Theorem eof_at_book_key_prompt (p : process) (c : main.console)
    (line msg : string) :
  main.stdin c = [line] ->
  main.current c = "archivist" ->
  plain_question (strip line) = true ->
  json_loads (strip line) = DecodeError msg ->
  main.loop_body net p c = Raise (Exn EOFError "EOF when reading a line")
  /\ forall c0,
       main.stdin c0 = [] ->
       main.loop_body net p c0
       = Ok (main.Break, prompted c0 [nl ++ "> "; nl ++ "Exiting..."] []).
Proof.
  intros Hin Hcur Hq Hjson. split.
  - rewrite (plain_turn p c line [] Hin Hq).
    cbn [prompted main.current]. rewrite Hcur.
    change (main.agent_entry "archivist")
      with (Ok (A := string * string) ("http://127.0.0.1:8001", "archivist_agent")).
    cbn [bind String.eqb Ascii.eqb Bool.eqb].
    unfold loads. rewrite Hjson. reflexivity.
  - intros [cur0 sin0 sout0] E0. simpl in E0. subst sin0.
    unfold main.loop_body, main.input_, prompted, raise.
    cbn [main.print main.stdin main.stdout main.current exn_cls].
    unfold main.print. cbn [main.stdin main.stdout main.current].
    now rewrite <- app_assoc.
Qed.

(** What a turn reads: one line, or two at the prompt for the book key;
    and the archivist is selected after it only if it was before, or if
    the line read selects it. *)
Lemma loop_body_reads (p : process) (c c' : main.console) (fl : main.flow) :
  main.loop_body net p c = Ok (fl, c') ->
  exists lines,
    main.stdin c = List.app lines (main.stdin c')
    /\ (main.current c' = "archivist" ->
        main.current c = "archivist" \/ existsb selects_archivist lines = true).
Proof.
  unfold main.loop_body, main.input_.
  destruct c as [cur sin sout]. destruct sin as [|line rest];
    cbn [main.print main.stdin main.stdout main.current main.set_current].
  - intros E. cbn in E. step_cases. exists []. split; [reflexivity | auto].
  - intros E. step_cases; kept;
      cbn [main.print main.stdin main.stdout main.current main.set_current] in *.
    all: repeat match goal with
                | E : main.stdin _ = _ |- _ => rewrite E; clear E
                | E : main.current _ = _ |- _ => rewrite E; clear E
                end.
    all: try (exists [line]; split; [reflexivity | intros Hc; left; exact Hc]).
    + exists [line]. split; [reflexivity|]. intros Hc. right.
      cbn [existsb]. unfold selects_archivist.
      match goal with
      | Hs : strip line = _, Hu : startswith _ "/use " = true |- _ =>
          rewrite Hs, Hu
      end.
      rewrite orb_false_r. cbn [andb]. apply String.eqb_eq. exact Hc.
    + match goal with
      | |- exists _, _ :: ?k :: _ = _ /\ _ => exists [line; k]
      end.
      split; [reflexivity | intros Hc; left; exact Hc].
Qed.

(** With a transport that always answers, a metadata document that is an
    object and lines that the decoder takes, a turn that starts on a
    configured agent ends without an exception, unless the input ends at
    the prompt for the book key: the archivist is selected, the last line
    is a question that is not JSON, and [EOFError] is raised. *)
Lemma loop_body_outcome (p : process) (md : list (string * pyval))
    (c : main.console) :
  always_answers net ->
  main.load_metadata p = Ok (PDict md) ->
  configured c ->
  (forall line, In line (main.stdin c) -> decodable line) ->
  (exists fl c', main.loop_body net p c = Ok (fl, c'))
  \/ (main.loop_body net p c = Raise (Exn EOFError "EOF when reading a line")
      /\ exists line msg,
           main.stdin c = [line]
           /\ main.current c = "archivist"
           /\ plain_question (strip line) = true
           /\ json_loads (strip line) = DecodeError msg).
Proof.
  intros Hnet Hmeta Hcur Hdec. unfold configured in Hcur.
  destruct c as [cur sin sout].
  cbn [main.stdin main.current] in Hcur, Hdec |- *.
  assert (Hentry : exists e, main.agent_entry cur = Ok e).
  { unfold main.agent_entry. destruct (main.lookup cur main.AGENTS);
      [eauto | contradiction]. }
  destruct Hentry as [[url agent_name] Hentry].
  destruct sin as [|line rest].
  { left. eexists _, _. reflexivity. }
  destruct (plain_question (strip line)) eqn:Hq.
  - rewrite (plain_turn p {| main.current := cur; main.stdin := line :: rest;
                             main.stdout := sout |} line rest eq_refl Hq).
    cbn [prompted main.current main.stdout]. rewrite Hentry. cbn [bind].
    destruct (String.eqb cur "archivist") eqn:Ea.
    + unfold loads.
      destruct (json_loads (strip line)) as [v|msg|e] eqn:Ej.
      * answered Hnet. left; eauto.
      * cbn [raise exn_cls]. destruct rest as [|answer rest].
        -- right. split; [reflexivity|]. exists line, msg.
           apply String.eqb_eq in Ea. auto.
        -- rewrite input_prompted. answered Hnet. left; eauto.
      * destruct (Hdec line (or_introl eq_refl) e Ej).
    + answered Hnet. left; eauto.
  - left. revert Hq. unfold plain_question, main.loop_body, main.input_.
    cbn [main.print main.stdin main.stdout main.current main.set_current].
    destruct (strip line) as [|a u] eqn:Eu; [eauto|].
    destruct (main.mem _ ["/exit"; "exit"; "quit"; ":q"]); [eauto|].
    destruct (main.mem _ ["/help"; "help"]).
    { intros _. unfold main.print_banner. rewrite Hentry.
      eexists _, _. reflexivity. }
    destruct (main.mem _ ["/agents"; "agents"]); [eauto|].
    destruct (startswith _ "/use ").
    { intros _.
      match goal with
      | |- context [match main.lookup ?n main.AGENTS with _ => _ end] =>
          destruct (main.lookup n main.AGENTS) as [[u1 a1]|]
      end; eexists _, _; reflexivity. }
    destruct (startswith _ "/meta ").
    { intros _. rewrite Hmeta. cbn [bind get]. destruct (negb _); eauto. }
    destruct (main.mem _ ["/list"; "list"]); [|discriminate].
    intros _.
    change (main.lookup "critic" main.AGENTS)
      with (Some ("http://127.0.0.1:8002", "literary_critic_agent")).
    cbv beta iota. answered Hnet. eauto.
Qed.

(** The lines typed so far and the lines left make the input, and the
    archivist is selected only after a line that selects it. *)
Lemma run_loop_outcome (p : process) (md : list (string * pyval))
    (typed consumed : list string) (fuel : nat) (c : main.console) :
  always_answers net ->
  main.load_metadata p = Ok (PDict md) ->
  (forall line, In line typed -> decodable line) ->
  configured c ->
  typed = List.app consumed (main.stdin c) ->
  (main.current c = "archivist" -> existsb selects_archivist consumed = true) ->
  List.length (main.stdin c) < fuel ->
  (exists c', main.run_loop net fuel p c = Some (Ok c'))
  \/ (main.run_loop net fuel p c = Some (Raise (Exn EOFError "EOF when reading a line"))
      /\ exists before line msg,
           typed = List.app before [line]
           /\ existsb selects_archivist before = true
           /\ plain_question (strip line) = true
           /\ json_loads (strip line) = DecodeError msg).
Proof.
  intros Hnet Hmeta Hdec. revert consumed c.
  induction fuel as [|fuel IH]; intros consumed c Hc Htyped Hsel Hlen; [lia|].
  simpl.
  assert (Hleft : forall line, In line (main.stdin c) -> decodable line).
  { intros line Hin. apply Hdec. rewrite Htyped. apply in_or_app. now right. }
  destruct (loop_body_outcome p md c Hnet Hmeta Hc Hleft)
    as [(fl & c' & E) | (E & line & msg & Hin & Hcur & Hq & Hj)]; rewrite E.
  - destruct (loop_body_step p c c' fl E) as [Hread Hconf].
    destruct (loop_body_reads p c c' fl E) as (lines & Hlines & Hturn).
    destruct fl; [|left; eauto].
    apply (IH (List.app consumed lines) c'); auto.
    + rewrite Htyped, Hlines. apply app_assoc.
    + intros Ha. rewrite existsb_app.
      destruct (Hturn Ha) as [Hb | Hb]; [rewrite (Hsel Hb) | rewrite Hb];
        auto using orb_true_r.
    + specialize (Hread eq_refl). lia.
  - right. split; [reflexivity|]. exists consumed, line, msg.
    rewrite Htyped, Hin. auto.
Qed.

(** X13. The client fails for few reasons. With a transport that answers
    every request, a metadata document that is an object (or is missing)
    and typed lines that the JSON decoder takes, a session ends normally,
    unless the input ends at the prompt for the book key: then it ends
    with [EOFError], the last line typed is a question that is not JSON,
    and a line typed before it has selected the archivist. *)
Theorem session_outcome (p : process) (md : list (string * pyval))
    (typed : list string) :
  always_answers net ->
  main.load_metadata p = Ok (PDict md) ->
  (forall line, In line typed -> decodable line) ->
  (exists c, main.interactive net p typed = Some (Ok c))
  \/ (main.interactive net p typed = Some (Raise (Exn EOFError "EOF when reading a line"))
      /\ exists before line msg,
           typed = List.app before [line]
           /\ existsb selects_archivist before = true
           /\ plain_question (strip line) = true
           /\ json_loads (strip line) = DecodeError msg).
Proof.
  intros Hnet Hmeta Hdec. unfold main.interactive.
  destruct (main.print_banner _ _) as [c|e] eqn:E; [|discriminate E].
  destruct (print_banner_keeps _ _ _ E) as [Hin Hcur].
  cbn [main.stdin main.current] in Hin, Hcur.
  apply (run_loop_outcome p md typed []); auto.
  - unfold configured. rewrite Hcur. discriminate.
  - rewrite Hcur. discriminate.
  - rewrite Hin. simpl. lia.
Qed.

End MoreInteractiveFacts.

(** A session that moves to the archivist and leaves. *)
Lemma selection_stays_configured_witness :
  exists c,
    main.interactive World.unreachable World.two_books ["/use archivist"; "exit"]
    = Some (Ok c)
    /\ main.current c = "archivist"
    /\ configured c.
Proof.
  eexists. split; [vm_compute; reflexivity|]. split; [reflexivity|].
  eapply (selection_stays_configured World.unreachable World.two_books
            ["/use archivist"; "exit"]).
  vm_compute. reflexivity.
Defined.

(** A metadata look-up, the archivist selected, a question, and the end of
    the input at the prompt for the book key. *)
Lemma session_outcome_witness :
  let net := World.echoing "A tale of obsession." in
  let p := World.metadata_elsewhere in
  let md := [("mobydick", PDict [("title", PStr "Moby Dick")])] in
  let typed := ["/meta mobydick"; "/use archivist"; "Who is Captain Ahab?"] in
  always_answers net
  /\ main.load_metadata p = Ok (PDict md)
  /\ (forall line, In line typed -> decodable line)
  /\ ((exists c, main.interactive net p typed = Some (Ok c))
      \/ (main.interactive net p typed = Some (Raise (Exn EOFError "EOF when reading a line"))
          /\ exists before line msg,
               typed = List.app before [line]
               /\ existsb selects_archivist before = true
               /\ plain_question (strip line) = true
               /\ json_loads (strip line) = DecodeError msg)).
Proof.
  intros net p md typed.
  assert (Hnet : always_answers net).
  { intros url name input. eexists. reflexivity. }
  assert (Hdec : forall line, In line typed -> decodable line).
  { intros line [<- | [<- | [<- | []]]] e; discriminate. }
  split; [exact Hnet|]. split; [reflexivity|]. split; [exact Hdec|].
  exact (session_outcome net p md typed Hnet eq_refl Hdec).
Defined.

(** The key is normalised before the look-up. *)
Lemma meta_command_witness :
  let c := {| main.current := "critic";
              main.stdin := ["/META  MobyDick "; "exit"];
              main.stdout := [] |} in
  main.loop_body World.unreachable World.metadata_elsewhere c
  = Ok (main.Continue,
        {| main.current := "critic";
           main.stdin := ["exit"];
           main.stdout :=
             [nl ++ "> ";
              json_dumps_indent2 (PDict [("title", PStr "Moby Dick")])] |}).
Proof.
  intros c.
  exact (meta_command World.unreachable World.metadata_elsewhere
           [("mobydick", PDict [("title", PStr "Moby Dick")])]
           c "/META  MobyDick " ["exit"] eq_refl eq_refl eq_refl).
Defined.

(** A question to the critic. *)
Lemma question_is_forwarded_witness :
  let c := {| main.current := "critic";
              main.stdin := ["  Who is Captain Ahab? "];
              main.stdout := [] |} in
  plain_question (strip "  Who is Captain Ahab? ") = true
  /\ main.loop_body (World.echoing "A tale of obsession.") World.two_books c
     = Ok (main.Continue,
           {| main.current := "critic";
              main.stdin := [];
              main.stdout :=
                [nl ++ "> ";
                 nl ++ "[Request] literary_critic_agent <= Who is Captain Ahab?";
                 "[Response] A tale of obsession."] |}).
Proof.
  intros c. split; [reflexivity|].
  refine (question_is_forwarded (World.echoing "A tale of obsession.")
            World.two_books c "  Who is Captain Ahab? "
            "http://127.0.0.1:8002" "literary_critic_agent" []
            eq_refl eq_refl eq_refl (or_introl _)).
  discriminate.
Defined.

(** A question to the archivist, and a book title typed at the second
    prompt: the alias is resolved in the object sent. *)
Lemma archivist_question_is_wrapped_witness :
  let c := {| main.current := "archivist";
              main.stdin := ["Who is Mr Darcy?"; " Pride and Prejudice "];
              main.stdout := [] |} in
  let payload :=
    json_dumps (PDict [("book_title", PStr "prideandprejudice");
                       ("query", PStr "Who is Mr Darcy?")]) in
  main.loop_body (World.echoing "A gentleman.") World.two_books c
  = Ok (main.Continue,
        {| main.current := "archivist";
           main.stdin := [];
           main.stdout :=
             [nl ++ "> ";
              "Book key (e.g., mobydick, frankenstein): ";
              nl ++ "[Request] archivist_agent <= " ++ payload;
              "[Response] A gentleman."] |}).
Proof.
  intros c payload.
  exact (archivist_question_is_wrapped (World.echoing "A gentleman.")
           World.two_books c "Who is Mr Darcy?" " Pride and Prejudice "
           "Expecting value" [] eq_refl eq_refl eq_refl eq_refl).
Defined.

(** The same question with nothing typed after it. *)
Lemma eof_at_book_key_prompt_witness :
  let c := {| main.current := "archivist";
              main.stdin := ["Who is Mr Darcy?"];
              main.stdout := [] |} in
  main.loop_body World.unreachable World.two_books c
  = Raise (Exn EOFError "EOF when reading a line").
Proof.
  intros c.
  exact (proj1 (eof_at_book_key_prompt World.unreachable World.two_books c
                  "Who is Mr Darcy?" "Expecting value"
                  eq_refl eq_refl eq_refl eq_refl)).
Defined.

(** ** More on the query router (smolagents_server.py) *)

Section MoreRouterFacts.
Context `{PyLib}.

(** X18. The archivist tool of the router never raises: it returns the
    first part of the answer, a fixed sentence when the run has no part
    (an error that the run reports is dropped), and the text of the
    exception behind a fixed prefix when the call fails. *)
Theorem archivist_tool_never_raises (e : smolagents_server.env) (input : string) :
  exists text,
    smolagents_server.archivist_agent e input = Ok text
    /\ match smolagents_server.net e "http://127.0.0.1:8001" "archivist_agent"
               [text_message input] with
       | Raise err =>
           text = "Error communicating with Archivist agent: " ++ exn_str err
       | Ok run =>
           match first_content run with
           | Some c => text = c
           | None => text = "Archivist returned no content."
           end
       end.
Proof.
  rewrite archivist_tool_total. eexists. split; [reflexivity|].
  destruct (smolagents_server.net e _ _ _) as [run|err]; [|reflexivity].
  destruct (first_content run); reflexivity.
Qed.

(** X19. With [USE_MCP_DISCOVERY] off, the two discovery tools stay on the
    local files: whatever the transport is, the listing is the directory
    scan and the metadata of a key is its entry in the local document, the
    empty object when there is none. *)
Theorem local_discovery_ignores_transport (e : smolagents_server.env)
    (n : transport) (k : string) :
  smolagents_server.USE_MCP (smolagents_server.proc e) = false ->
  smolagents_server.list_available_books (with_net e n)
  = Ok (PList (map PStr (smolagents_server._scan_books (smolagents_server.proc e))))
  /\ smolagents_server.get_book_metadata (with_net e n) k
     = (meta <- smolagents_server._load_metadata (smolagents_server.proc e) ;;
        get meta k (PDict [])).
Proof.
  intros Hoff.
  unfold smolagents_server.list_available_books,
    smolagents_server.get_book_metadata.
  rewrite (all_tools_off (with_net e n) Hoff). split; reflexivity.
Qed.

(** X20. With [USE_MCP_DISCOVERY] on, the router answers no request: the
    definition of [get_book_metadata] in that branch has a docstring
    without a description of [book_key], its decoration raises
    [DocstringParsingException], and this happens before the prompt is
    read. The catalog service is never asked and no fallback is taken:
    the two discovery tools cannot be called. *)
Theorem discovery_on_router_fails (e : smolagents_server.env)
    (input : list Message) (k : string) :
  smolagents_server.USE_MCP (smolagents_server.proc e) = true ->
  exists msg,
    smolagents_server.literary_critic_agent e input
    = Raise (Exn DocstringParsingException msg)
    /\ smolagents_server.list_available_books e
       = Raise (Exn DocstringParsingException msg)
    /\ smolagents_server.get_book_metadata e k
       = Raise (Exn DocstringParsingException msg).
Proof.
  intros Hon. destruct (all_tools_on e Hon) as [msg Hmsg]. exists msg.
  unfold smolagents_server.literary_critic_agent,
    smolagents_server.list_available_books,
    smolagents_server.get_book_metadata.
  rewrite Hmsg. repeat split.
Qed.

(** X22. With [USE_MCP_DISCOVERY] off, a prompt of the fast path is
    answered without the decision function, whatever that function is:
    the guidance message when the directory scan finds no key, and
    otherwise the header followed by every key of the scan in ascending
    order. This is the listing of the Catalog Store over the same files
    when the store's metadata mapping is empty. *)
Theorem fast_path_listing (e : smolagents_server.env)
    (r : smolagents_server.toolset -> string -> outcome string)
    (input : list Message) (prompt : string) :
  smolagents_server.USE_MCP (smolagents_server.proc e) = false ->
  carries input prompt ->
  smolagents_server.fast_path (lower prompt) = true ->
  let ks := sorted (mcpserver.scan_books (smolagents_server.proc e)) in
  smolagents_server.literary_critic_agent (with_reasoner e r) input
  = Ok [text_message
          (match ks with
           | [] => smolagents_server.NO_BOOKS
           | _ => "Available books (use these keys):" ++ nl ++ "- "
                    ++ join (nl ++ "- ") ks
           end)]
  /\ ascending ks
  /\ mcpserver.listed_keys (smolagents_server.proc e) (PDict []) = Ok ks.
Proof.
  intros Hoff (more_parts & more_messages & ->) Hfast ks.
  split; [|split; [apply sorted_ascending | reflexivity]].
  unfold smolagents_server.literary_critic_agent.
  rewrite (all_tools_off (with_reasoner e r) Hoff). simpl.
  rewrite Hfast. unfold smolagents_server.list_available_books_local.
  cbn [bind smolagents_server.proc with_reasoner].
  rewrite join_sorted_strings, router_scan_is_catalog_scan.
  fold ks.
  assert (Hnil : mcpserver.scan_books (smolagents_server.proc e) = [] -> ks = []).
  { intros E. unfold ks. now rewrite E. }
  assert (Hcons : forall x l,
            mcpserver.scan_books (smolagents_server.proc e) = x :: l -> ks <> []).
  { intros x l E Hks.
    pose proof (sorted_perm (mcpserver.scan_books (smolagents_server.proc e)))
      as P.
    fold ks in P. rewrite E, Hks in P. now apply Permutation_sym, Permutation_nil in P. }
  destruct (mcpserver.scan_books (smolagents_server.proc e)) as [|x l] eqn:E.
  - rewrite (Hnil eq_refl). reflexivity.
  - specialize (Hcons x l eq_refl). destruct ks; [contradiction | reflexivity].
Qed.

Lemma lower_app (a b : string) : lower (a ++ b) = lower a ++ lower b.
Proof. induction a as [|c a IH]; simpl; [reflexivity | now rewrite IH]. Qed.

Lemma prefix_app (w s t : string) :
  String.prefix w s = true -> String.prefix w (s ++ t) = true.
Proof.
  revert s. induction w as [|a w IH]; intros s.
  - intros _. destruct (s ++ t); reflexivity.
  - destruct s as [|b s]; cbn [String.prefix String.append]; [discriminate|].
    destruct (ascii_dec a b); [apply IH | discriminate].
Qed.

Lemma contains_app_r (w s t : string) :
  contains w s = true -> contains w (s ++ t) = true.
Proof.
  induction s as [|b s IH]; intros E.
  - cbn [contains] in E. rewrite orb_false_r in E.
    pose proof (prefix_app w EmptyString t E) as P.
    cbn [String.append] in P |- *.
    destruct t; cbn [contains]; rewrite P; reflexivity.
  - cbn [contains] in E. apply orb_prop in E.
    change (String b s ++ t) with (String b (s ++ t)). cbn [contains].
    destruct E as [E|E].
    + pose proof (prefix_app w (String b s) t E) as P.
      cbn [String.append] in P. rewrite P. reflexivity.
    + rewrite (IH E). apply orb_true_r.
Qed.

Lemma contains_app_l (w s t : string) :
  contains w t = true -> contains w (s ++ t) = true.
Proof.
  intros E. induction s as [|b s IH]; [exact E|].
  change (String b s ++ t) with (String b (s ++ t)). cbn [contains].
  rewrite IH. apply orb_true_r.
Qed.

(** X23. The fast path looks for its words anywhere in the prompt: a
    prompt that contains a prompt of the fast path is on the fast path
    too, whatever else it asks. *)
Theorem fast_path_superstring (before prompt after : string) :
  smolagents_server.fast_path (lower prompt) = true ->
  smolagents_server.fast_path (lower (before ++ prompt ++ after)) = true.
Proof.
  assert (Hmono : forall w,
            contains w (lower prompt) = true ->
            contains w (lower (before ++ prompt ++ after)) = true).
  { intros w E. rewrite !lower_app.
    apply contains_app_l, contains_app_r, E. }
  unfold smolagents_server.fast_path.
  rewrite !andb_true_iff, !orb_true_iff.
  intros [[E|E] [[F|F]|F]]; split; auto.
Qed.

End MoreRouterFacts.

(** With discovery off, a transport that would answer is not asked. *)
Lemma local_discovery_ignores_transport_witness :
  let e := World.router_of World.metadata_elsewhere World.unreachable in
  let n := World.echoing "[]" in
  smolagents_server.USE_MCP (smolagents_server.proc e) = false
  /\ smolagents_server.list_available_books (with_net e n)
     = Ok (PList [PStr "frankenstein"])
  /\ smolagents_server.get_book_metadata (with_net e n) "mobydick"
     = Ok (PDict [("title", PStr "Moby Dick")]).
Proof.
  intros e n. split; [reflexivity|].
  exact (local_discovery_ignores_transport e n "mobydick" eq_refl).
Defined.

(** Discovery switched on, the catalog service running or not: the
    request for the listing fails, and so does every other one. *)
Lemma discovery_on_router_fails_witness :
  let p := World.with_env World.two_books "USE_MCP_DISCOVERY" "true" in
  let h := World.catalog_of World.two_books in
  let e := World.router_of p
             (World.serving "http://127.0.0.1:8003" "book_catalog_agent"
                (mcpserver.book_catalog_agent h)) in
  smolagents_server.USE_MCP (smolagents_server.proc e) = true
  /\ exists msg,
       smolagents_server.literary_critic_agent e
         [text_message "List the available books."]
       = Raise (Exn DocstringParsingException msg)
       /\ smolagents_server.list_available_books e
          = Raise (Exn DocstringParsingException msg)
       /\ smolagents_server.get_book_metadata e "mobydick"
          = Raise (Exn DocstringParsingException msg).
Proof.
  intros p h e. split; [reflexivity|].
  exact (discovery_on_router_fails e [text_message "List the available books."]
           "mobydick" eq_refl).
Defined.

(** The example of the design document: two books, the question about the
    library, a decision function that would fail, and the answer that
    lists both keys in order. *)
Lemma fast_path_listing_witness :
  let e := World.router_of World.two_books World.unreachable in
  let prompt := "What books are available in the library?" in
  smolagents_server.USE_MCP (smolagents_server.proc e) = false
  /\ carries [text_message prompt] prompt
  /\ smolagents_server.fast_path (lower prompt) = true
  /\ smolagents_server.literary_critic_agent
       (with_reasoner e (fun _ _ => raise ProtocolError "no model"))
       [text_message prompt]
     = Ok [text_message
             ("Available books (use these keys):" ++ nl
                ++ "- frankenstein" ++ nl ++ "- mobydick")].
Proof.
  intros e prompt.
  assert (Hc : carries [text_message prompt] prompt).
  { exists [], []. reflexivity. }
  split; [reflexivity|]. split; [exact Hc|]. split; [reflexivity|].
  exact (proj1 (fast_path_listing e (fun _ _ => raise ProtocolError "no model")
                  [text_message prompt] prompt eq_refl Hc eq_refl)).
Defined.

(** The example of the design document inside a longer question. *)
Lemma fast_path_superstring_witness :
  smolagents_server.fast_path (lower "have any books") = true
  /\ smolagents_server.fast_path
       (lower ("Who is Captain Ahab, and do you " ++ "have any books"
                 ++ " by Melville?")) = true.
Proof.
  split; [reflexivity|].
  exact (fast_path_superstring "Who is Captain Ahab, and do you "
           "have any books" " by Melville?" eq_refl).
Defined.

(** ** More on the archivist specialist (crew_agent_server.py) *)

Section MoreArchivistFacts.
Context `{PyLib}.

(** A request that decodes to an object with the two fields is parsed. *)
Lemma parse_request_ok (p : process) (input : list Message) (text : string)
    (d : list (string * pyval)) (title query : pyval) :
  carries input text ->
  json_loads text = Decoded (PDict d) ->
  dict_lookup "book_title" d = Some title ->
  dict_lookup "query" d = Some query ->
  crew_agent_server.parse_request p input
  = Ok (title, query,
        path_join (crew_agent_server.data_dir p) (format title ++ ".txt")).
Proof.
  intros (more_parts & more_messages & ->) E Ht Hq.
  unfold crew_agent_server.parse_request, loads.
  simpl. rewrite E. simpl. rewrite Ht. simpl. rewrite Hq. reflexivity.
Qed.

(** X24. A well-formed request for a book whose file exists is handed to
    the retrieval pipeline, built over that file, with the title and the
    query as decoded; the pipeline's answer is the single message of the
    reply, and its failure is the failure of the agent. *)
Theorem existing_book_is_delegated (e : crew_agent_server.env)
    (input : list Message) (text : string) (d : list (string * pyval))
    (title query : pyval) :
  carries input text ->
  json_loads text = Decoded (PDict d) ->
  dict_lookup "book_title" d = Some title ->
  dict_lookup "query" d = Some query ->
  let filename :=
    path_join (crew_agent_server.data_dir (crew_agent_server.proc e))
              (format title ++ ".txt") in
  isfile (fs (crew_agent_server.proc e)) filename = true ->
  crew_agent_server.archivist_agent e input
  = (task_output <- crew_agent_server.crew_kickoff e filename title query ;;
     Ok [text_message task_output]).
Proof.
  intros Hc E Ht Hq filename Hfile.
  unfold crew_agent_server.archivist_agent.
  rewrite (parse_request_ok _ input text d title query Hc E Ht Hq).
  fold filename. rewrite Hfile. reflexivity.
Qed.

(** X25. A title that is not a string, for which no file exists, makes the
    agent fail: the message about the missing book is built by
    concatenation, which raises [TypeError], and the handler above does not
    cover that statement. *)
Theorem non_string_title_raises (e : crew_agent_server.env)
    (input : list Message) (text : string) (d : list (string * pyval))
    (title query : pyval) :
  carries input text ->
  json_loads text = Decoded (PDict d) ->
  dict_lookup "book_title" d = Some title ->
  dict_lookup "query" d = Some query ->
  (forall s, title <> PStr s) ->
  isfile (fs (crew_agent_server.proc e))
         (path_join (crew_agent_server.data_dir (crew_agent_server.proc e))
                    (format title ++ ".txt")) = false ->
  exists msg,
    crew_agent_server.archivist_agent e input = Raise (Exn TypeError msg).
Proof.
  intros Hc E Ht Hq Hns Hfile.
  unfold crew_agent_server.archivist_agent.
  rewrite (parse_request_ok _ input text d title query Hc E Ht Hq).
  rewrite Hfile. cbn [negb].
  destruct title; try (eexists; reflexivity).
  now destruct (Hns s).
Qed.

Lemma path_join_absolute (a t rest : string) :
  startswith t "/" = true -> path_join a (t ++ rest) = t ++ rest.
Proof.
  intros E. unfold path_join.
  destruct t as [|c t]; [discriminate E|].
  unfold startswith in *. cbn [String.append String.prefix] in *.
  destruct (ascii_dec "/"%char c); [|discriminate E].
  destruct (t ++ rest); reflexivity.
Qed.

(** X26. A title that begins with [/] leaves the content directory: the
    file looked up, and handed to the retrieval pipeline when it exists, is
    the title followed by [.txt], taken from the root of the file
    system. *)
Theorem absolute_title_escapes (e : crew_agent_server.env)
    (input : list Message) (text title : string) (d : list (string * pyval))
    (query : pyval) :
  carries input text ->
  json_loads text = Decoded (PDict d) ->
  dict_lookup "book_title" d = Some (PStr title) ->
  dict_lookup "query" d = Some query ->
  startswith title "/" = true ->
  isfile (fs (crew_agent_server.proc e)) (title ++ ".txt") = true ->
  crew_agent_server.archivist_agent e input
  = (task_output <-
       crew_agent_server.crew_kickoff e (title ++ ".txt") (PStr title) query ;;
     Ok [text_message task_output]).
Proof.
  intros Hc E Ht Hq Habs Hfile.
  unfold crew_agent_server.archivist_agent.
  rewrite (parse_request_ok _ input text d (PStr title) query Hc E Ht Hq).
  cbn [format]. rewrite (path_join_absolute _ title ".txt" Habs), Hfile.
  reflexivity.
Qed.

(** X27. Every key that the catalog's directory scan reports is among the
    keys that the archivist offers when a book is missing; the archivist
    also offers the stems of entries that are not regular files. *)
Theorem scan_keys_are_offered (p : process) (k : string) :
  In k (mcpserver.scan_books p) -> In k (crew_agent_server.available_keys p).
Proof.
  unfold mcpserver.scan_books, crew_agent_server.available_keys.
  change (crew_agent_server.data_dir p) with (mcpserver.DATA_DIR p).
  destruct (isdir _ _); simpl; [|intros []].
  rewrite !in_map_iff. intros (f & Hk & Hf). exists f. split; [exact Hk|].
  apply filter_In in Hf. destruct Hf as (Hf & Hc).
  apply andb_prop in Hc. apply filter_In. tauto.
Qed.

(** X28. A request with no message, or whose first message has no part,
    makes the archivist fail with [IndexError], and the router too once
    its tools are defined (with [USE_MCP_DISCOVERY] off): both read the
    first part without the guard that the catalog agent has. *)
Theorem empty_request_raises (r : smolagents_server.env)
    (a : crew_agent_server.env) (more : list Message) :
  smolagents_server.USE_MCP (smolagents_server.proc r) = false ->
  smolagents_server.literary_critic_agent r []
  = Raise (Exn IndexError "list index out of range")
  /\ smolagents_server.literary_critic_agent r ({| parts := [] |} :: more)
     = Raise (Exn IndexError "list index out of range")
  /\ crew_agent_server.archivist_agent a []
     = Raise (Exn IndexError "list index out of range")
  /\ crew_agent_server.archivist_agent a ({| parts := [] |} :: more)
     = Raise (Exn IndexError "list index out of range").
Proof.
  intros Hoff. unfold smolagents_server.literary_critic_agent.
  rewrite (all_tools_off r Hoff). repeat split.
Qed.

End MoreArchivistFacts.

(** The empty request, against the router and the archivist over two
    books. *)
Lemma empty_request_raises_witness :
  let r := World.router_of World.two_books World.unreachable in
  let a := World.archivist_of World.two_books in
  smolagents_server.USE_MCP (smolagents_server.proc r) = false
  /\ smolagents_server.literary_critic_agent r []
     = Raise (Exn IndexError "list index out of range")
  /\ crew_agent_server.archivist_agent a []
     = Raise (Exn IndexError "list index out of range").
Proof.
  intros r a. split; [reflexivity|].
  destruct (empty_request_raises r a [] eq_refl) as (Hr & _ & Ha & _).
  split; [exact Hr | exact Ha].
Defined.

(** A request for [mobydick], which is on disk. *)
Lemma existing_book_is_delegated_witness :
  let e := World.archivist_of World.two_books in
  let text := "{" ++ World.q "book_title" ++ ": " ++ World.q "mobydick"
                  ++ ", " ++ World.q "query" ++ ": " ++ World.q "Who narrates?"
                  ++ "}" in
  json_loads text
  = Decoded (PDict [("book_title", PStr "mobydick");
                    ("query", PStr "Who narrates?")])
  /\ isfile (fs World.two_books) "/srv/librarian/data/mobydick.txt" = true
  /\ crew_agent_server.archivist_agent e [text_message text]
     = Ok [text_message "Call me Ishmael."].
Proof.
  intros e text. split; [reflexivity|]. split; [reflexivity|].
  apply (existing_book_is_delegated e [text_message text] text
           [("book_title", PStr "mobydick"); ("query", PStr "Who narrates?")]
           (PStr "mobydick") (PStr "Who narrates?")).
  - exists [], []. reflexivity.
  - reflexivity.
  - reflexivity.
  - reflexivity.
  - reflexivity.
Defined.

(** A request whose title is the number 7. *)
Lemma non_string_title_raises_witness :
  let e := World.archivist_of World.two_books in
  let text := "{" ++ World.q "book_title" ++ ": 7, "
                  ++ World.q "query" ++ ": " ++ World.q "q" ++ "}" in
  json_loads text = Decoded (PDict [("book_title", PInt 7); ("query", PStr "q")])
  /\ exists msg,
       crew_agent_server.archivist_agent e [text_message text]
       = Raise (Exn TypeError msg).
Proof.
  intros e text. split; [reflexivity|].
  apply (non_string_title_raises e [text_message text] text
           [("book_title", PInt 7); ("query", PStr "q")] (PInt 7) (PStr "q")).
  - exists [], []. reflexivity.
  - reflexivity.
  - reflexivity.
  - reflexivity.
  - intros s. discriminate.
  - reflexivity.
Defined.

(** A request for [/etc/motd]: the pipeline is built over [/etc/motd.txt]. *)
Lemma absolute_title_escapes_witness :
  let e := {| crew_agent_server.proc := World.mixed_entries;
              crew_agent_server.crew_kickoff := fun filename _ _ => Ok filename |} in
  let text := "{" ++ World.q "book_title" ++ ": " ++ World.q "/etc/motd"
                  ++ ", " ++ World.q "query" ++ ": " ++ World.q "q" ++ "}" in
  json_loads text
  = Decoded (PDict [("book_title", PStr "/etc/motd"); ("query", PStr "q")])
  /\ crew_agent_server.archivist_agent e [text_message text]
     = Ok [text_message "/etc/motd.txt"].
Proof.
  intros e text. split; [reflexivity|].
  apply (absolute_title_escapes e [text_message text] text "/etc/motd"
           [("book_title", PStr "/etc/motd"); ("query", PStr "q")] (PStr "q")).
  - exists [], []. reflexivity.
  - reflexivity.
  - reflexivity.
  - reflexivity.
  - reflexivity.
  - reflexivity.
Defined.

(** The book is reported by the scan and offered by the archivist; the
    directory [drafts.txt] is offered by the archivist only. *)
Lemma scan_keys_are_offered_witness :
  In "mobydick" (mcpserver.scan_books World.mixed_entries)
  /\ In "mobydick" (crew_agent_server.available_keys World.mixed_entries)
  /\ In "drafts" (crew_agent_server.available_keys World.mixed_entries)
  /\ ~ In "drafts" (mcpserver.scan_books World.mixed_entries).
Proof.
  assert (Hin : In "mobydick" (mcpserver.scan_books World.mixed_entries)).
  { left. reflexivity. }
  split; [exact Hin|].
  split; [exact (scan_keys_are_offered World.mixed_entries "mobydick" Hin)|].
  split.
  - right. left. reflexivity.
  - intros [E|[]]. discriminate E.
Defined.

(** ** The listing request, from the clients to the router
       (main.py, scripts/list_books.py, smolagents_server.py) *)

Section ListingFacts.
Context `{PyLib}.
Variable net : transport.

Lemma list_not_reserved (w : string) :
  w = "/list" \/ w = "list" ->
  main.mem w ["/exit"; "exit"; "quit"; ":q"] = false
  /\ main.mem w ["/help"; "help"] = false
  /\ main.mem w ["/agents"; "agents"] = false
  /\ startswith w "/use " = false
  /\ startswith w "/meta " = false
  /\ main.mem w ["/list"; "list"] = true.
Proof. intros [-> | ->]; repeat split. Qed.

(** X29. [/list] (or [list], in any case) always asks the critic, whatever
    the active agent is: the request sent is the sentence
    [List the available books.], and the answer is printed behind
    [[Response]]. The selection is kept. *)
Theorem list_command (p : process) (c : main.console) (line : string)
    (rest : list string) :
  main.stdin c = line :: rest ->
  lower (strip line) = "/list" \/ lower (strip line) = "list" ->
  main.loop_body net p c
  = (answer <- main.call_agent net "http://127.0.0.1:8002"
                 "literary_critic_agent" "List the available books." ;;
     Ok (main.Continue,
         prompted c
           [nl ++ "> ";
            nl ++ "[Request] literary_critic_agent <= List the available books.";
            "[Response] " ++ answer] rest)).
Proof.
  intros Hin Hw.
  destruct (list_not_reserved _ Hw) as (H1 & H2 & H3 & H4 & H5 & H6).
  unfold main.loop_body, main.input_.
  destruct c as [cur sin sout]. simpl in Hin. subst sin.
  cbn [main.print main.stdin main.stdout main.current].
  destruct (strip line) as [|a u] eqn:Eu.
  { destruct Hw as [Hw|Hw]; discriminate Hw. }
  rewrite H1, H2, H3, H4, H5, H6.
  change (main.lookup "critic" main.AGENTS)
    with (Some ("http://127.0.0.1:8002", "literary_critic_agent")).
  cbv beta iota.
  unfold main.request, prompted, main.print.
  cbn [main.current main.stdin main.stdout].
  destruct (main.call_agent _ _ _ _); cbn; [|reflexivity].
  now rewrite <- !app_assoc.
Qed.

(** The router's answer to the sentence that the clients send. *)
Lemma listing_sentence_answer (e : smolagents_server.env) :
  smolagents_server.USE_MCP (smolagents_server.proc e) = false ->
  smolagents_server.literary_critic_agent e
    [text_message "List the available books."]
  = Ok [text_message
          (match smolagents_server._scan_books (smolagents_server.proc e) with
           | [] => smolagents_server.NO_BOOKS
           | ks => "Available books (use these keys):" ++ nl ++ "- "
                     ++ join (nl ++ "- ") (sorted ks)
           end)].
Proof.
  intros Hoff. unfold smolagents_server.literary_critic_agent.
  rewrite (all_tools_off e Hoff).
  cbn [index nth_error bind text_message parts content
       smolagents_server.tool_list_available_books].
  change (smolagents_server.fast_path (lower "List the available books."))
    with true.
  cbv beta iota. unfold smolagents_server.list_available_books_local.
  cbn [bind]. rewrite join_sorted_strings.
  destruct (smolagents_server._scan_books _); reflexivity.
Qed.

(** X30. The listing script prints the router's listing: when the
    transport reaches the router and the router runs with
    [USE_MCP_DISCOVERY] off, the one line it prints is the guidance
    message if the directory scan finds no key, and otherwise the header
    followed by every key in ascending order. The router's decision
    function plays no part: the sentence that the script sends is on the
    fast path. *)
Theorem list_script_prints_listing (e : smolagents_server.env) :
  reaches net "http://127.0.0.1:8002" "literary_critic_agent"
    (smolagents_server.literary_critic_agent e) ->
  smolagents_server.USE_MCP (smolagents_server.proc e) = false ->
  list_books.main net
  = Ok [match smolagents_server._scan_books (smolagents_server.proc e) with
        | [] => smolagents_server.NO_BOOKS
        | ks => "Available books (use these keys):" ++ nl ++ "- "
                  ++ join (nl ++ "- ") (sorted ks)
        end].
Proof.
  intros Hreach Hoff.
  destruct (Hreach _ _ (listing_sentence_answer e Hoff)) as [err Hrun].
  unfold list_books.main. rewrite Hrun. reflexivity.
Qed.

End ListingFacts.

(** [LIST], typed while the archivist is selected. *)
Lemma list_command_witness :
  let c := {| main.current := "archivist";
              main.stdin := [" LIST "];
              main.stdout := [] |} in
  main.loop_body (World.echoing "Available books") World.two_books c
  = Ok (main.Continue,
        {| main.current := "archivist";
           main.stdin := [];
           main.stdout :=
             [nl ++ "> ";
              nl ++ "[Request] literary_critic_agent <= List the available books.";
              "[Response] Available books"] |}).
Proof.
  intros c.
  exact (list_command (World.echoing "Available books") World.two_books c
           " LIST " [] eq_refl (or_intror eq_refl)).
Defined.

(** The script against a router over two books, whose decision function
    would fail. *)
Lemma list_script_prints_listing_witness :
  let e := with_reasoner (World.router_of World.two_books World.unreachable)
             (fun _ _ => raise ProtocolError "no model") in
  let net := World.serving "http://127.0.0.1:8002" "literary_critic_agent"
               (smolagents_server.literary_critic_agent e) in
  reaches net "http://127.0.0.1:8002" "literary_critic_agent"
    (smolagents_server.literary_critic_agent e)
  /\ smolagents_server.USE_MCP (smolagents_server.proc e) = false
  /\ list_books.main net
     = Ok ["Available books (use these keys):" ++ nl
             ++ "- frankenstein" ++ nl ++ "- mobydick"].
Proof.
  intros e net.
  assert (Hreach : reaches net "http://127.0.0.1:8002" "literary_critic_agent"
                     (smolagents_server.literary_critic_agent e)).
  { intros input out Hout. exists None.
    unfold net, World.serving. rewrite Hout. reflexivity. }
  split; [exact Hreach|]. split; [reflexivity|].
  exact (list_script_prints_listing net e Hreach eq_refl).
Defined.
